(** * photo_transform.py: single-photo restyling through a remote generation service

    A shallow embedding of [src/photo_transform.py].

    - Python dictionaries are association lists in insertion order (the
      keyboards iterate over them, so the order is observable).
    - Every call that leaves the module (aiohttp, replicate.Client, python-magic,
      PIL, asyncio.sleep, datetime) is answered by a [World] of oracles and is
      recorded, in program order, in the [trace] of the process state.
    - Code runs in the monad [M]: it reads the world, threads the process state
      and ends with a value, with a raised exception, or without an answer when
      the polling loop is cut off by its fuel.
    - An exception records whether it derives from Python's [Exception]; the
      [except Exception] clauses of the module catch those and let the others
      (such as [asyncio.CancelledError]) through.
    - Calls to [logger] do not influence control flow and are left out.
    - No method other than [__init__] assigns to an attribute of [self], so the
      generator is an immutable record handed to every method. *)

From Stdlib Require Import String List ZArith Lia Bool DecimalString.
Import ListNotations.
Open Scope string_scope.
Open Scope Z_scope.

(** ** Python values used by the module *)

Definition bytes := list Init.Byte.byte.

(** A [dict] with string keys, as the list of its items in insertion order. *)
Definition dict (V : Type) := list (string * V).

Fixpoint dict_get {V : Type} (d : dict V) (k : string) : option V :=
  match d with
  | [] => None
  | (k', v) :: d' => if String.eqb k k' then Some v else dict_get d' k
  end.

(** [k in d] *)
Definition dict_mem {V : Type} (k : string) (d : dict V) : bool :=
  match dict_get d k with Some _ => true | None => false end.

Definition dict_keys {V : Type} (d : dict V) : list string := map fst d.

(** [d[k] = v]: an existing key keeps its position. *)
Fixpoint dict_set {V : Type} (d : dict V) (k : string) (v : V) : dict V :=
  match d with
  | [] => [(k, v)]
  | (k', v') :: d' =>
      if String.eqb k k' then (k, v) :: d' else (k', v') :: dict_set d' k v
  end.

(** [s.startswith(p)] *)
Definition startswith (s p : string) : bool := String.prefix p s.

(** [needle in hay] on two strings. *)
Fixpoint str_contains (needle hay : string) : bool :=
  String.prefix needle hay ||
  match hay with
  | EmptyString => false
  | String _ hay' => str_contains needle hay'
  end.

(** [str(n)] for an [int]. *)
Definition str_of_int (n : Z) : string := NilZero.string_of_int (Z.to_int n).

(** [repr(s)] of a plain key, as [KeyError] prints it. *)
Definition repr_key (s : string) : string := "'" ++ s ++ "'".

(** An exception object: its class, what [str(e)] gives, and whether it is an
    instance of [Exception]; [asyncio.CancelledError], [KeyboardInterrupt] and
    [SystemExit] derive from [BaseException] only and are not. *)
Record exn := Exn { exn_class : string; exn_str : string; exn_is_exception : bool }.

Definition Exception (msg : string) : exn := Exn "Exception" msg true.
Definition ValueError (msg : string) : exn := Exn "ValueError" msg true.
Definition TypeError (msg : string) : exn := Exn "TypeError" msg true.
Definition KeyError (key : string) : exn := Exn "KeyError" (repr_key key) true.

(** The result of a call that either returns or raises. *)
Inductive result (A : Type) : Type :=
| Ok (a : A)
| Raise (e : exn).
Arguments Ok {A} a.
Arguments Raise {A} e.

(** What [json.loads] can produce. *)
#[warnings="-register-all"]
Inductive json : Type :=
| JNull
| JBool (b : bool)
| JInt (n : Z)
| JFloat (repr : string)
| JStr (s : string)
| JArr (items : list json)
| JObj (items : list (string * json)).

Definition json_type_name (j : json) : string :=
  match j with
  | JNull => "NoneType"
  | JBool _ => "bool"
  | JInt _ => "int"
  | JFloat _ => "float"
  | JStr _ => "str"
  | JArr _ => "list"
  | JObj _ => "dict"
  end.

Definition json_is_str (k : string) (j : json) : bool :=
  match j with JStr s => String.eqb k s | _ => false end.

(** [k in j] for a string [k]: key membership on a dict, element membership
    on a list, substring on a string, [TypeError] on anything else. *)
Definition py_in (k : string) (j : json) : result bool :=
  match j with
  | JObj items => Ok (dict_mem k items)
  | JArr items => Ok (existsb (json_is_str k) items)
  | JStr s => Ok (str_contains k s)
  | _ => Raise (TypeError ("argument of type '" ++ json_type_name j ++ "' is not iterable"))
  end.

(** [j[k]] for a string [k]; the texts are those of CPython 3.11 and later. *)
Definition py_getitem (j : json) (k : string) : result json :=
  match j with
  | JObj items =>
      match dict_get items k with
      | Some v => Ok v
      | None => Raise (KeyError k)
      end
  | JArr _ => Raise (TypeError "list indices must be integers or slices, not str")
  | JStr _ => Raise (TypeError "string indices must be integers, not 'str'")
  | _ => Raise (TypeError ("'" ++ json_type_name j ++ "' object is not subscriptable"))
  end.

(** The JSON body is an object that has key [k]. *)
Definition json_has_key (k : string) (j : json) : bool :=
  match j with JObj items => dict_mem k items | _ => false end.

(** ** The outside world *)

(** An aiohttp response: [status], the [Content-Type] header if present, and
    what [await response.text()] and [await response.json()] give. *)
Record http_response := {
  status : Z;
  content_type : option string;
  text : result string;
  body_json : result json
}.

(** What [client.files.get] hands back: [bytes], or an object of another
    type, of which only [str(type(x))] is used. *)
Inductive file_content :=
| FileBytes (b : bytes)
| FileOther (type_repr : string).

(** A PIL image handle. *)
Record Image := { img_mode : string; img_data : bytes }.

(** [prediction.output]: a [str], or another object with its [str()]. *)
Inductive output_value :=
| OutStr (s : string)
| OutOther (as_str : string).

(** A prediction; [pred_error] is [None] when the attribute is missing. *)
Record Prediction := {
  pred_id : string;
  pred_status : string;
  pred_output : output_value;
  pred_error : option string
}.

(** [input_params] of [generate_image]. *)
Record input_params := {
  prompt : string;
  ip_aspect_ratio : string;
  reference_tags : list string;
  reference_images : list json;
  output_resolution : string
}.

(** A [replicate.Client]: the three methods the module calls.
    [predictions_get n id] is the answer to the [n]-th poll of a run. *)
Record Client := {
  files_get : json -> result file_content;
  predictions_create : string -> input_params -> result Prediction;
  predictions_get : nat -> string -> result Prediction
}.

Record World := {
  session_post : string -> dict string -> bytes -> result http_response;
  session_get : string -> dict string -> result http_response;
  magic_from_buffer : bytes -> result string;
  image_open : bytes -> result Image;
  image_convert : Image -> string -> result Image;
  image_save : Image -> string -> Z -> result bytes;
  replicate_Client : string -> Client;
  now_isoformat : string
}.

Inductive event :=
| EvPost (url : string) (headers : dict string) (data : bytes)
| EvGet (url : string) (headers : dict string)
| EvFilesGet (file_id : json)
| EvMagic (buf : bytes)
| EvImageOpen (data : bytes)
| EvImageConvert (img : Image) (mode : string)
| EvImageSave (img : Image) (format : string) (quality : Z)
| EvCreate (model : string) (input : input_params)
| EvSleep (seconds : Z)
| EvPredGet (id : string).

(** The process state: [os.environ] and the calls made so far. *)
Record State := {
  environ : dict string;
  trace : list event
}.

Definition log_event (e : event) (s : State) : State :=
  {| environ := environ s; trace := trace s ++ [e] |}.

(** ** The monad of the module's code *)

Inductive outcome (A : Type) : Type :=
| Returns (a : A)
| Raises (e : exn)
| OutOfFuel.
Arguments Returns {A} a.
Arguments Raises {A} e.
Arguments OutOfFuel {A}.

Definition M (A : Type) : Type := World -> State -> outcome A * State.

Definition ret {A : Type} (a : A) : M A := fun _ s => (Returns a, s).

Definition raise {A : Type} (e : exn) : M A := fun _ s => (Raises e, s).

Definition out_of_fuel {A : Type} : M A := fun _ s => (OutOfFuel, s).

Definition bind {A B : Type} (m : M A) (k : A -> M B) : M B :=
  fun w s =>
    match m w s with
    | (Returns a, s') => k a w s'
    | (Raises e, s') => (Raises e, s')
    | (OutOfFuel, s') => (OutOfFuel, s')
    end.

(** [try: body / except Exception as e: handler e]: an exception that is
    not an instance of [Exception] passes the clause. *)
Definition try_except {A : Type} (body : M A) (handler : exn -> M A) : M A :=
  fun w s =>
    match body w s with
    | (Raises e, s') =>
        if exn_is_exception e then handler e w s' else (Raises e, s')
    | r => r
    end.

Definition lift {A : Type} (r : result A) : M A :=
  match r with
  | Ok a => ret a
  | Raise e => raise e
  end.

(** A call to the world: the event is recorded, then the answer comes back. *)
Definition call {A : Type} (e : event) (ask : World -> result A) : M A :=
  fun w s => lift (ask w) w (log_event e s).

Declare Scope monad_scope.
Delimit Scope monad_scope with monad.
Notation "x <- m ;; k" := (bind m (fun x => k))
  (at level 61, m at next level, right associativity) : monad_scope.
Notation "m ;; k" := (bind m (fun _ => k))
  (at level 61, right associativity) : monad_scope.
Open Scope monad_scope.

(** [os.environ[k]] *)
Definition environ_getitem (k : string) : M string :=
  fun w s =>
    match dict_get (environ s) k with
    | Some v => (Returns v, s)
    | None => (Raises (KeyError k), s)
    end.

(** The string of the one character NUL. *)
Definition nul : string := String Ascii.zero EmptyString.

(** [os.environ[k] = v] on POSIX: [putenv] refuses a name or a value with an
    embedded NUL, then an empty name or one with [=], and the mapping is
    updated only after [putenv] has accepted both.  Strings are the byte
    strings that Python has encoded, so a failure to encode is not modelled. *)
Definition environ_setitem (k v : string) : M unit :=
  fun w s =>
    if str_contains nul k || str_contains nul v then
      (Raises (ValueError "embedded null byte"), s)
    else if String.eqb k EmptyString || str_contains "=" k then
      (Raises (ValueError "illegal environment variable name"), s)
    else
      (Returns tt, {| environ := dict_set (environ s) k v; trace := trace s |}).

(** ** upload_image_to_replicate *)

Definition files_endpoint : string := "https://api.replicate.com/v1/files".

Definition upload_headers (token filename : string) : dict string :=
  [ ("Authorization", "Token " ++ token);
    ("Content-Type", "application/octet-stream");
    ("X-File-Name", filename) ].

Definition upload_image_to_replicate (image_bytes : bytes) (filename : string) : M json :=
  try_except
    (let url := files_endpoint in
     token <- environ_getitem "REPLICATE_API_TOKEN" ;;
     let headers := upload_headers token filename in
     response <- call (EvPost url headers image_bytes)
                      (fun w => session_post w url headers image_bytes) ;;
     if status response =? 201 then
       data <- lift (body_json response) ;;
       has_url <- lift (py_in "url" data) ;;
       if has_url then
         metadata_url <- lift (py_getitem data "url") ;;
         ret metadata_url
       else
         raise (Exception "Ответ не содержит URL")
     else
       error_text <- lift (text response) ;;
       raise (Exception ("Ошибка загрузки на Replicate: HTTP "
                           ++ str_of_int (status response) ++ " - " ++ error_text)))
    (fun e => raise e).

(** ** download_image *)

Definition download_headers (api_key : string) : dict string :=
  [ ("Authorization", "Token " ++ api_key);
    ("Accept", "application/json") ].

(** [response.headers.get('Content-Type', '')] *)
Definition content_type_or_empty (r : http_response) : string :=
  match content_type r with Some c => c | None => EmptyString end.

Definition download_image (api_key url : string) (client : Client) : M bytes :=
  try_except
    (let headers := download_headers api_key in
     response <- call (EvGet url headers) (fun w => session_get w url headers) ;;
     file_id <-
       (if status response =? 200 then
          let ct := content_type_or_empty response in
          if negb (startswith ct "application/json") then
            raise (Exception ("Ожидался JSON в метаданных, получен Content-Type: " ++ ct))
          else
            metadata <- lift (body_json response) ;;
            has_id <- lift (py_in "id" metadata) ;;
            if negb has_id then
              raise (Exception "Метаданные не содержат id файла")
            else
              lift (py_getitem metadata "id")
        else
          error_text <- lift (text response) ;;
          raise (Exception ("Ошибка получения метаданных: HTTP "
                              ++ str_of_int (status response) ++ " - " ++ error_text))) ;;
     file_content <- call (EvFilesGet file_id) (fun _ => files_get client file_id) ;;
     match file_content with
     | FileOther type_repr =>
         raise (Exception ("replicate.Client.files.get вернул не бинарные данные: тип "
                             ++ type_repr))
     | FileBytes content =>
         file_type <- call (EvMagic content) (fun w => magic_from_buffer w content) ;;
         if negb (startswith file_type "image/") then
           raise (Exception ("Скачанные данные не являются изображением: MIME-тип "
                               ++ file_type))
         else
           ret content
     end)
    (fun e => raise e).

(** ** PhotoTransformGenerator *)

Record PhotoTransformGenerator := {
  api_key : string;
  styles : dict (dict string);
  aspect_ratios : dict string;
  aspect_ratio_map : dict string;
  resolutions : dict string;
  client : Client
}.

(** [d[k]] on a configuration dictionary. *)
Definition dict_getitem {V : Type} (d : dict V) (k : string) : result V :=
  match dict_get d k with
  | Some v => Ok v
  | None => Raise (KeyError k)
  end.

Definition nl : string := String (Ascii.ascii_of_nat 10) EmptyString.

(** [self.styles] as [__init__] builds it. *)
Definition init_styles : dict (dict string) :=
  [ ("photoshop",
      [ ("name", "🤍 Фотошоп");
        ("description", "Улучшение качества без изменений");
        ("prompt_template", "Professional portrait photo of @person, enhanced quality, flawless high-definition smooth beautiful skin, perfect even skin tone, flawless complexion, razor-sharp focus on eyes, detailed ultra-realistic eyes, clean background, natural colors, perfect lighting, photorealistic, ultra-high resolution, 16K, masterpiece, best quality, hyper-detailed, no artifacts, sharp details everywhere, crystal-clear sharpness, flawless 32K resolution");
        ("model", "runwayml/gen4-image");
        ("model_type", "gen4");
        ("aspect_ratio", "3:4") ]);
    ("art",
      [ ("name", "🎨 AI Art");
        ("description", "Иллюстрация в авторском стиле");
        ("prompt_template", "Digital art illustration of @person, artistic style, flawless high-definition smooth beautiful skin, perfect even skin tone, flawless complexion, razor-sharp focus on eyes, detailed ultra-realistic eyes, pastel colors, creative portrait, Pinterest aesthetic, beautiful lighting, stylized, ultra-high resolution, 16K, masterpiece, best quality, hyper-detailed, no artifacts, sharp details everywhere, crystal-clear sharpness, flawless 32K resolution");
        ("model", "runwayml/gen4-image");
        ("model_type", "gen4");
        ("aspect_ratio", "3:4") ]);
    ("cinema",
      [ ("name", "🎬 Кино");
        ("description", "Кадр из художественного фильма");
        ("prompt_template", "Cinematic portrait of @person, movie scene, flawless high-definition smooth beautiful skin, perfect even skin tone, flawless complexion, razor-sharp focus on eyes, detailed ultra-realistic eyes, dramatic lighting, film grain, atmospheric colors, professional cinematography, ultra-high resolution, 16K, masterpiece, best quality, hyper-detailed, no artifacts, sharp details everywhere, crystal-clear sharpness, flawless 32K resolution");
        ("model", "runwayml/gen4-image");
        ("model_type", "gen4");
        ("aspect_ratio", "3:4") ]);
    ("portrait",
      [ ("name", "🧠 Портрет");
        ("description", "Глубокий психологический образ");
        ("prompt_template", "Deep psychological portrait of @person, soft shadows, face focus, flawless high-definition smooth beautiful skin, perfect even skin tone, flawless complexion, razor-sharp focus on eyes, detailed ultra-realistic eyes, character photography, soulful expression, professional photographer style, ultra-high resolution, 16K, masterpiece, best quality, hyper-detailed, no artifacts, sharp details everywhere, crystal-clear sharpness, flawless 32K resolution");
        ("model", "runwayml/gen4-image");
        ("model_type", "gen4");
        ("aspect_ratio", "3:4") ]);
    ("fantasy",
      [ ("name", "⚡ Фантастика");
        ("description", "Неон, sci-fi, визуальный драйв");
        ("prompt_template", "Cyberpunk portrait of @person, neon lights, sci-fi style, flawless high-definition smooth beautiful skin, perfect even skin tone, flawless complexion, razor-sharp focus on eyes, detailed ultra-realistic eyes, futuristic, glitch effects, dramatic lighting, cosmic atmosphere, ultra-high resolution, 16K, masterpiece, best quality, hyper-detailed, no artifacts, sharp details everywhere, crystal-clear sharpness, flawless 32K resolution");
        ("model", "runwayml/gen4-image");
        ("model_type", "gen4");
        ("aspect_ratio", "3:4") ]);
    ("lego",
      [ ("name", "🧱 LEGO");
        ("description", "Превращение в LEGO минифигурку");
        ("prompt_template", "A hyper-detailed LEGO minifigure of @person, ultra-realistic LEGO style, razor-sharp focus on eyes, detailed eyes, 4K resolution, vibrant colors, precise blocky textures, LEGO hair with stud details, glossy LEGO pieces, visible brick seams, LEGO cityscape background, cinematic lighting, plastic sheen, blocky toy-like nature, perfect LEGO brick alignment, stud patterns, reflective plastic surfaces, ultra-high resolution, 16K, masterpiece, best quality, no artifacts, sharp details everywhere, crystal-clear sharpness, flawless 32K resolution");
        ("model", "runwayml/gen4-image");
        ("model_type", "gen4");
        ("aspect_ratio", "3:4") ]) ].

Definition init_aspect_ratios : dict string :=
  [ ("9:16", "9:16"); ("4:3", "4:3"); ("3:4", "3:4"); ("1:1", "1:1"); ("16:9", "16:9") ].

Definition init_aspect_ratio_map : dict string :=
  [ ("9", "9:16"); ("16", "16:9"); ("4", "4:3"); ("3", "3:4"); ("1", "1:1") ].

Definition init_resolutions : dict string := [ ("720p", "720p") ].

(** [PhotoTransformGenerator.__init__] *)
Definition init (replicate_api_key : string) : M PhotoTransformGenerator :=
  environ_setitem "REPLICATE_API_TOKEN" replicate_api_key ;;
  fun w s =>
    (Returns {| api_key := replicate_api_key;
                styles := init_styles;
                aspect_ratios := init_aspect_ratios;
                aspect_ratio_map := init_aspect_ratio_map;
                resolutions := init_resolutions;
                client := replicate_Client w replicate_api_key |}, s).

(** Values of the result dictionary of [generate_image]. *)
Inductive value :=
| VBool (b : bool)
| VStr (s : string).

(** [datetime.now().isoformat()] *)
Definition datetime_now_isoformat : M string :=
  fun w s => (Returns (now_isoformat w), s).

(** [asyncio.sleep(seconds)] *)
Definition asyncio_sleep (seconds : Z) : M unit :=
  call (EvSleep seconds) (fun _ => Ok tt).

Definition terminal_statuses : list string := [ "succeeded"; "failed"; "canceled" ].

(** [x in xs] on a list of strings. *)
Definition str_in (x : string) (xs : list string) : bool := existsb (String.eqb x) xs.

(** The [while] loop of [generate_image]; [n] counts the polls made so far,
    [fuel] bounds the number of iterations still allowed. *)
Fixpoint wait_for_completion (fuel : nat) (self : PhotoTransformGenerator)
    (n : nat) (prediction : Prediction) : M Prediction :=
  if negb (str_in (pred_status prediction) terminal_statuses) then
    match fuel with
    | O => out_of_fuel
    | S fuel' =>
        asyncio_sleep 2 ;;
        prediction' <- call (EvPredGet (pred_id prediction))
                            (fun _ => predictions_get (client self) n (pred_id prediction)) ;;
        wait_for_completion fuel' self (S n) prediction'
    end
  else
    ret prediction.

(** [hasattr(prediction, 'error') and prediction.error], when truthy. *)
Definition truthy_error (p : Prediction) : option string :=
  match pred_error p with
  | Some EmptyString => None
  | Some e => Some e
  | None => None
  end.

Definition failure_dict (error style now : string) : dict value :=
  [ ("success", VBool false);
    ("error", VStr error);
    ("style", VStr style);
    ("timestamp", VStr now) ].

Definition generate_image (fuel : nat) (self : PhotoTransformGenerator)
    (image_url style : string) (user_id : Z) (aspect_ratio resolution : string)
    : M (dict value) :=
  try_except
    (if negb (dict_mem style (styles self)) then
       raise (ValueError ("Неизвестный стиль: " ++ style))
     else
     let aspect_ratio :=
       if dict_mem aspect_ratio (aspect_ratio_map self) then
         match dict_get (aspect_ratio_map self) aspect_ratio with
         | Some a => a
         | None => aspect_ratio
         end
       else aspect_ratio in
     if negb (dict_mem aspect_ratio (aspect_ratios self)) then
       raise (ValueError ("Неподдерживаемое соотношение сторон: " ++ aspect_ratio))
     else
     if negb (dict_mem resolution (resolutions self)) then
       raise (ValueError ("Неподдерживаемое разрешение: " ++ resolution))
     else
     style_config <- lift (dict_getitem (styles self) style) ;;
     image_bytes <- download_image (api_key self) image_url (client self) ;;
     img <- try_except
              (call (EvImageOpen image_bytes) (fun w => image_open w image_bytes))
              (fun pil_err =>
                 raise (ValueError ("Невозможно открыть изображение: " ++ exn_str pil_err))) ;;
     rgb <- call (EvImageConvert img "RGB") (fun w => image_convert w img "RGB") ;;
     processed_image_bytes <- call (EvImageSave rgb "JPEG" 95)
                                   (fun w => image_save w rgb "JPEG" 95) ;;
     processed_url <- upload_image_to_replicate processed_image_bytes "processed.jpg" ;;
     prompt_template <- lift (dict_getitem style_config "prompt_template") ;;
     let input_params :=
       {| prompt := prompt_template;
          ip_aspect_ratio := aspect_ratio;
          reference_tags := [ "person" ];
          reference_images := [ processed_url ];
          output_resolution := resolution |} in
     model <- lift (dict_getitem style_config "model") ;;
     prediction <- call (EvCreate model input_params)
                        (fun _ => predictions_create (client self) model input_params) ;;
     prediction <- wait_for_completion fuel self 0 prediction ;;
     if String.eqb (pred_status prediction) "succeeded" then
       let result_url :=
         match pred_output prediction with
         | OutStr output_url => output_url
         | OutOther as_str => as_str
         end in
       style_name <- lift (dict_getitem style_config "name") ;;
       now <- datetime_now_isoformat ;;
       ret [ ("success", VBool true);
             ("result_url", VStr result_url);
             ("style", VStr style);
             ("style_name", VStr style_name);
             ("timestamp", VStr now);
             ("prediction_id", VStr (pred_id prediction)) ]
     else
       let error_msg := "Генерация завершилась со статусом: " ++ pred_status prediction in
       let error_msg :=
         match truthy_error prediction with
         | Some err => error_msg ++ " - " ++ err
         | None => error_msg
         end in
       now <- datetime_now_isoformat ;;
       ret (failure_dict error_msg style now))
    (fun e =>
       now <- datetime_now_isoformat ;;
       ret (failure_dict (exn_str e) style now)).

(** ** Presentation helpers *)

Definition Button := dict string.
Definition Keyboard := list (list Button).

Definition cancel_button : Button :=
  [ ("text", "❌ Отменить"); ("callback_data", "transform_cancel") ].

(** The [for] loop of [get_style_keyboard] over [self.styles.items()]. *)
Fixpoint style_keyboard_loop (items : dict (dict string))
    (keyboard : Keyboard) (row : list Button) : M (Keyboard * list Button) :=
  match items with
  | [] => ret (keyboard, row)
  | (style_key, style_info) :: rest =>
      name <- lift (dict_getitem style_info "name") ;;
      let button_data : Button :=
        [ ("text", name); ("callback_data", "transform_style:" ++ style_key) ] in
      let row := (row ++ [ button_data ])%list in
      if Nat.eqb (length row) 2 then
        style_keyboard_loop rest (keyboard ++ [ row ])%list []
      else
        style_keyboard_loop rest keyboard row
  end.

(** [if row: keyboard.append(row)] followed by the cancel row. *)
Definition finish_keyboard (keyboard : Keyboard) (row : list Button) : Keyboard :=
  let keyboard := match row with [] => keyboard | _ => (keyboard ++ [ row ])%list end in
  (keyboard ++ [ [ cancel_button ] ])%list.

Definition get_style_keyboard (self : PhotoTransformGenerator) : M Keyboard :=
  kr <- style_keyboard_loop (styles self) [] [] ;;
  ret (finish_keyboard (fst kr) (snd kr)).

Definition get_style_info (self : PhotoTransformGenerator) (style : string)
    : M (option (dict string)) :=
  ret (dict_get (styles self) style).

(** The [descriptions] table of [get_style_description]. *)
Definition descriptions : dict string :=
  [ ("photoshop",
     String.concat nl
       [ "🤍 Фотошоп / Улучшение";
         EmptyString;
         "Ты — как есть, но в идеальном свете.";
         "Фон вычищен, кожа выглядит свежо, цвета — естественные.";
         "Как будто твое фото ретушировал профи. Без лишних фильтров.";
         EmptyString;
         "📌 Подходит для: аватарки, резюме, профиля.";
         "⚡ PixelPie AI улучшит качество с помощью нейросети" ]);
    ("art",
     String.concat nl
       [ "🎨 AI Art / Иллюстрация";
         EmptyString;
         "Фото превращается в арт.";
         "Линии, свет, пастель или стиль digital-иллюстраций — и ты выглядишь как персонаж книги или Pinterest-постера.";
         EmptyString;
         "📌 Подходит для: творчества, сторис, эстетичного контента.";
         "🎨 PixelPie AI создаст уникальную иллюстрацию" ]);
    ("cinema",
     String.concat nl
       [ "🎬 Кино / Cinematic";
         EmptyString;
         "Ты в кадре — будто это сцена из фильма.";
         "Атмосферные цвета, направленный свет и немного драмы.";
         EmptyString;
         "📌 Подходит для: ярких образов, вау-эффекта, постов с настроением.";
         "🎥 PixelPie AI применит кинематографическую обработку" ]);
    ("portrait",
     String.concat nl
       [ "🧠 Портрет / Психологический";
         EmptyString;
         "Глубокий взгляд, мягкие тени, фокус на лице.";
         "Эффект, как будто ты снят фотографом, который умеет показать характер.";
         EmptyString;
         "📌 Подходит для: спокойных аватарок, презентаций, контента с душой.";
         "📸 PixelPie AI создаст профессиональный портрет" ]);
    ("fantasy",
     String.concat nl
       [ "⚡ Фантастика / Neon-Cyber";
         EmptyString;
         "Ты в другом времени, в другой вселенной.";
         "Глитчи, неон, драматичный свет — визуальный экшн прямо из sci-fi трейлера.";
         EmptyString;
         "📌 Подходит для: аватарок, сторис, ярких постов.";
         "🚀 PixelPie AI перенесет тебя в будущее" ]);
    ("lego",
     String.concat nl
       [ "🧱 LEGO / Минифигурка";
         EmptyString;
         "Превращение в детализированную LEGO минифигурку.";
         "Яркие цвета, блочные текстуры, культовый стиль конструктора.";
         "Каждая деталь проработана до мельчайших кубиков!";
         EmptyString;
         "📌 Подходит для: веселых аватарок, подарков, креативного контента.";
         "🧱 PixelPie AI создаст твою уникальную LEGO-версию" ]) ].

Definition aspect_ratio_description_text : string :=
  String.concat nl
    [ EmptyString;
      "📐 Выберите соотношение сторон для вашего изображения!";
      EmptyString;
      "Это как рамка для картины: определяет форму изображения.";
      "- 9:16: Вертикальный формат, идеален для сторис и мобильных экранов 📱";
      "- 16:9: Горизонтальный, как видео на YouTube или киноэкран 🎥";
      "- 1:1: Квадрат, классика для аватарок и постов в соцсетях 🔲";
      "- 3:4 / 4:3: Портретный или альбомный, универсальный для фото 📸";
      EmptyString;
      "PixelPie AI подстроит генерацию под выбранный формат для лучшего результата! ✨";
      EmptyString ].

Definition get_style_description (self : PhotoTransformGenerator) (style : string) : M string :=
  ret (match dict_get descriptions style with
       | Some d => d
       | None => "Описание недоступно"
       end).

(** The [for] loop of [get_aspect_ratio_keyboard] over the keys of
    [self.aspect_ratios]. *)
Fixpoint ratio_keyboard_loop (style_key : string) (keys : list string)
    (keyboard : Keyboard) (row : list Button) : M (Keyboard * list Button) :=
  match keys with
  | [] => ret (keyboard, row)
  | ratio_key :: rest =>
      let button_data : Button :=
        [ ("text", ratio_key);
          ("callback_data", "transform_ratio:" ++ style_key ++ ":" ++ ratio_key) ] in
      let row := (row ++ [ button_data ])%list in
      if Nat.eqb (length row) 3 then
        ratio_keyboard_loop style_key rest (keyboard ++ [ row ])%list []
      else
        ratio_keyboard_loop style_key rest keyboard row
  end.

Definition get_aspect_ratio_keyboard (self : PhotoTransformGenerator) (style_key : string)
    : M Keyboard :=
  kr <- ratio_keyboard_loop style_key (dict_keys (aspect_ratios self)) [] [] ;;
  ret (finish_keyboard (fst kr) (snd kr)).

(** The [for] loop of [get_resolution_keyboard]: every button goes into one row. *)
Fixpoint resolution_keyboard_loop (style_key aspect_ratio : string) (keys : list string)
    (row : list Button) : M (list Button) :=
  match keys with
  | [] => ret row
  | res_key :: rest =>
      let button_data : Button :=
        [ ("text", res_key);
          ("callback_data",
           "transform_resolution:" ++ style_key ++ ":" ++ aspect_ratio ++ ":" ++ res_key) ] in
      resolution_keyboard_loop style_key aspect_ratio rest (row ++ [ button_data ])%list
  end.

Definition get_resolution_keyboard (self : PhotoTransformGenerator)
    (style_key aspect_ratio : string) : M Keyboard :=
  row <- resolution_keyboard_loop style_key aspect_ratio (dict_keys (resolutions self)) [] ;;
  ret (finish_keyboard [] row).

Definition get_aspect_ratio_description (self : PhotoTransformGenerator) : M string :=
  ret aspect_ratio_description_text.

(** * Notions used in the statements *)

(** [s'] is [s] after the calls [evs], in this order, and nothing else. *)
Definition events_after (s s' : State) (evs : list event) : Prop :=
  environ s' = environ s /\ trace s' = (trace s ++ evs)%list.

(** The upload is answered with status 201 and a JSON object whose [url] is [v]. *)
Definition upload_accepted (w : World) (s : State) (image_bytes : bytes)
    (filename : string) (v : json) : Prop :=
  exists token response items,
    dict_get (environ s) "REPLICATE_API_TOKEN" = Some token /\
    session_post w files_endpoint (upload_headers token filename) image_bytes = Ok response /\
    status response = 201 /\
    body_json response = Ok (JObj items) /\
    dict_get items "url" = Some v.

(** The metadata request is answered with status 200, a JSON content type
    and a JSON object whose [id] is [file_id]. *)
Definition metadata_resolved (response : http_response) (file_id : json) : Prop :=
  status response = 200 /\
  startswith (content_type_or_empty response) "application/json" = true /\
  exists items, body_json response = Ok (JObj items) /\ dict_get items "id" = Some file_id.

(** The JSON body of the response, when there is one, has key [k]. *)
Definition body_has_key (k : string) (response : http_response) : bool :=
  match body_json response with
  | Ok j => json_has_key k j
  | Raise _ => false
  end.

(** The fetched content is [bytes] whose MIME type starts with [image/]. *)
Definition is_image_bytes (w : World) (fc : file_content) : bool :=
  match fc with
  | FileBytes content =>
      match magic_from_buffer w content with
      | Ok file_type => startswith file_type "image/"
      | Raise _ => false
      end
  | FileOther _ => false
  end.

(** [fetched] are the predictions that successive polls return, starting
    from [p] at poll number [n]: each poll asks for the id of the prediction
    at hand, which has no terminal status yet. *)
Fixpoint poll_chain (c : Client) (n : nat) (p : Prediction) (fetched : list Prediction)
    : Prop :=
  match fetched with
  | [] => True
  | q :: rest =>
      str_in (pred_status p) terminal_statuses = false /\
      predictions_get c n (pred_id p) = Ok q /\
      poll_chain c (S n) q rest
  end.

(** The calls of the iterations that fetch [fetched]. *)
Fixpoint poll_events (p : Prediction) (fetched : list Prediction) : list event :=
  match fetched with
  | [] => []
  | q :: rest => EvSleep 2 :: EvPredGet (pred_id p) :: poll_events q rest
  end.

(** C2 as stated: the loop would leave only at [succeeded] or [failed]. *)
Definition exits_only_at_succeeded_or_failed : Prop :=
  forall fuel self n p w s p' s',
    wait_for_completion fuel self n p w s = (Returns p', s') ->
    pred_status p' = "succeeded" \/ pred_status p' = "failed".

(** The aspect ratio after [generate_image] has normalized it. *)
Definition normalized_ratio (self : PhotoTransformGenerator) (aspect_ratio : string) : string :=
  match dict_get (aspect_ratio_map self) aspect_ratio with
  | Some a => a
  | None => aspect_ratio
  end.

(** The input of the generation job. *)
Definition job_input (prompt_template ratio : string) (processed_url : json)
    (resolution : string) : input_params :=
  {| prompt := prompt_template;
     ip_aspect_ratio := ratio;
     reference_tags := [ "person" ];
     reference_images := [ processed_url ];
     output_resolution := resolution |}.

(** The dictionary of a successful run. *)
Definition success_dict (final : Prediction) (style style_name now : string) : dict value :=
  [ ("success", VBool true);
    ("result_url",
     VStr (match pred_output final with OutStr u => u | OutOther u => u end));
    ("style", VStr style);
    ("style_name", VStr style_name);
    ("timestamp", VStr now);
    ("prediction_id", VStr (pred_id final)) ].

(** The steps of a run of [generate_image] that waited for its job to end
    with the prediction [final], and the calls it made, in order. *)
Definition generation_steps (self : PhotoTransformGenerator)
    (image_url style aspect_ratio resolution : string) (w : World) (s s' : State)
    (style_config : dict string) (final : Prediction) : Prop :=
  exists response file_id image_bytes file_type img rgb processed token processed_url
         prompt_template model created fetched,
    (* the style key, the normalized aspect ratio and the resolution are valid *)
    dict_get (styles self) style = Some style_config /\
    dict_mem (normalized_ratio self aspect_ratio) (aspect_ratios self) = true /\
    dict_mem resolution (resolutions self) = true /\
    (* download_image *)
    session_get w image_url (download_headers (api_key self)) = Ok response /\
    metadata_resolved response file_id /\
    files_get (client self) file_id = Ok (FileBytes image_bytes) /\
    magic_from_buffer w image_bytes = Ok file_type /\
    startswith file_type "image/" = true /\
    (* re-encoding to RGB JPEG, quality 95 *)
    image_open w image_bytes = Ok img /\
    image_convert w img "RGB" = Ok rgb /\
    image_save w rgb "JPEG" 95 = Ok processed /\
    (* upload_image_to_replicate *)
    dict_get (environ s) "REPLICATE_API_TOKEN" = Some token /\
    upload_accepted w s processed "processed.jpg" processed_url /\
    (* one generation job *)
    dict_get style_config "prompt_template" = Some prompt_template /\
    dict_get style_config "model" = Some model /\
    predictions_create (client self) model
      (job_input prompt_template (normalized_ratio self aspect_ratio) processed_url resolution)
      = Ok created /\
    (* polling *)
    poll_chain (client self) 0 created fetched /\
    final = last fetched created /\
    str_in (pred_status final) terminal_statuses = true /\
    events_after s s'
      ([ EvGet image_url (download_headers (api_key self));
         EvFilesGet file_id;
         EvMagic image_bytes;
         EvImageOpen image_bytes;
         EvImageConvert img "RGB";
         EvImageSave rgb "JPEG" 95;
         EvPost files_endpoint (upload_headers token "processed.jpg") processed;
         EvCreate model
           (job_input prompt_template (normalized_ratio self aspect_ratio)
              processed_url resolution) ]
       ++ poll_events created fetched).

(** The event is the submission of a generation job. *)
Definition is_create (ev : event) : bool :=
  match ev with EvCreate _ _ => true | _ => false end.



(** A call is pure when its outcome is the same in every world and process
    state, it is an answer, and the process state (environment and trace of
    calls to the outside) is left as it was. *)
Definition pure_call {A : Type} (m : M A) : Prop :=
  exists o, o <> OutOfFuel /\ forall w s, m w s = (o, s).

(** Filling rows of [width] buttons: what both keyboard loops do with the
    buttons they make. *)
Fixpoint fill_rows (width : nat) (buttons : list Button)
    (keyboard : Keyboard) (row : list Button) : Keyboard * list Button :=
  match buttons with
  | [] => (keyboard, row)
  | b :: rest =>
      let row := (row ++ [ b ])%list in
      if Nat.eqb (length row) width then
        fill_rows width rest (keyboard ++ [ row ])%list []
      else
        fill_rows width rest keyboard row
  end.

(** The buttons that the three keyboards are made of. *)
Definition style_button (name style_key : string) : Button :=
  [ ("text", name); ("callback_data", "transform_style:" ++ style_key) ].

Definition ratio_button (style_key ratio_key : string) : Button :=
  [ ("text", ratio_key);
    ("callback_data", "transform_ratio:" ++ style_key ++ ":" ++ ratio_key) ].

Definition resolution_button (style_key aspect_ratio res_key : string) : Button :=
  [ ("text", res_key);
    ("callback_data",
     "transform_resolution:" ++ style_key ++ ":" ++ aspect_ratio ++ ":" ++ res_key) ].

(** The button of a configured style: its text is the style's [name]. *)
Definition is_style_button (item : string * dict string) (b : Button) : Prop :=
  exists name, dict_get (snd item) "name" = Some name /\ b = style_button name (fst item).

(** Whatever answer [m] gives, [m'] gives the same. *)
Definition settles {A : Type} (m m' : M A) : Prop :=
  forall w s o s', m w s = (o, s') -> o <> OutOfFuel -> m' w s = (o, s').

(** ** The order of the calls *)

(** The place of a call in a run of [generate_image]: the metadata GET,
    [files.get], the MIME check, the three PIL steps, the upload POST, the
    job submission, then sleeping and polling in turns. *)
Definition call_kind (ev : event) : nat :=
  match ev with
  | EvGet _ _ => 0
  | EvFilesGet _ => 1
  | EvMagic _ => 2
  | EvImageOpen _ => 3
  | EvImageConvert _ _ => 4
  | EvImageSave _ _ _ => 5
  | EvPost _ _ _ => 6
  | EvCreate _ _ => 7
  | EvSleep _ => 8
  | EvPredGet _ => 9
  end%nat.

(** From place [st] the only call allowed is the one of kind [st]; after a
    poll comes the next sleep. *)
Definition protocol_next (st : nat) (ev : event) : option nat :=
  if Nat.eqb (call_kind ev) st then
    Some (if Nat.eqb st 9 then 8%nat else S st)
  else None.

(** The place reached from [st] by the calls [evs], if they come in order. *)
Fixpoint protocol (st : nat) (evs : list event) : option nat :=
  match evs with
  | [] => Some st
  | ev :: rest =>
      match protocol_next st ev with
      | Some st' => protocol st' rest
      | None => None
      end
  end.

(** Started at place [i], the calls of [m] come in order, whatever its
    outcome, the environment is left alone, and when [m] returns the place
    reached is [j]. *)
Definition follows {A : Type} (i j : nat) (m : M A) : Prop :=
  forall w s, exists evs k,
    events_after s (snd (m w s)) evs /\
    protocol i evs = Some k /\
    (forall a, fst (m w s) = Returns a -> k = j).

(** How often a call of kind [c] occurs among [evs]. *)
Definition count_kind (c : nat) (evs : list event) : nat :=
  length (filter (fun ev => Nat.eqb (call_kind ev) c) evs).

(** The three checks of [generate_image] on its arguments. *)
Definition valid_arguments (self : PhotoTransformGenerator)
    (style aspect_ratio resolution : string) : bool :=
  dict_mem style (styles self) &&
  dict_mem (normalized_ratio self aspect_ratio) (aspect_ratios self) &&
  dict_mem resolution (resolutions self).

(** The message of a job that ended without success. *)
Definition job_error_message (final : Prediction) : string :=
  match truthy_error final with
  | Some err => ("Генерация завершилась со статусом: " ++ pred_status final) ++ " - " ++ err
  | None => "Генерация завершилась со статусом: " ++ pred_status final
  end.

(** The calls of [generate_image] up to the submission of the job. *)
Definition job_calls (self : PhotoTransformGenerator) (image_url : string)
    (file_id : json) (image_bytes : bytes) (img rgb : Image) (processed : bytes)
    (token model : string) (input : input_params) : list event :=
  [ EvGet image_url (download_headers (api_key self));
    EvFilesGet file_id;
    EvMagic image_bytes;
    EvImageOpen image_bytes;
    EvImageConvert img "RGB";
    EvImageSave rgb "JPEG" 95;
    EvPost files_endpoint (upload_headers token "processed.jpg") processed;
    EvCreate model input ].

(** Every step up to the submission of the job answers well: the arguments
    are valid, the image is fetched, recognised, re-encoded and uploaded, the
    style has a prompt and a model, and the service creates the prediction
    [created]; [s1] is the process state at that point. *)
Definition job_submitted (self : PhotoTransformGenerator)
    (image_url style aspect_ratio resolution : string) (w : World) (s : State)
    (style_config : dict string) (created : Prediction) (s1 : State) : Prop :=
  exists response file_id image_bytes file_type img rgb processed token processed_url
         prompt_template model,
    valid_arguments self style aspect_ratio resolution = true /\
    dict_get (styles self) style = Some style_config /\
    session_get w image_url (download_headers (api_key self)) = Ok response /\
    metadata_resolved response file_id /\
    files_get (client self) file_id = Ok (FileBytes image_bytes) /\
    magic_from_buffer w image_bytes = Ok file_type /\
    startswith file_type "image/" = true /\
    image_open w image_bytes = Ok img /\
    image_convert w img "RGB" = Ok rgb /\
    image_save w rgb "JPEG" 95 = Ok processed /\
    dict_get (environ s) "REPLICATE_API_TOKEN" = Some token /\
    upload_accepted w s processed "processed.jpg" processed_url /\
    dict_get style_config "prompt_template" = Some prompt_template /\
    dict_get style_config "model" = Some model /\
    predictions_create (client self) model
      (job_input prompt_template (normalized_ratio self aspect_ratio) processed_url resolution)
      = Ok created /\
    s1 = {| environ := environ s;
            trace := trace s ++
                     job_calls self image_url file_id image_bytes img rgb processed token model
                       (job_input prompt_template (normalized_ratio self aspect_ratio)
                          processed_url resolution) |}.

(** The state [s] after the further calls [evs]. *)
Definition after_calls (s : State) (evs : list event) : State :=
  {| environ := environ s; trace := trace s ++ evs |}.

(** Every job that [m] submits, whatever its outcome, has an input that
    satisfies [P]. *)
Definition submits_only {A : Type} (P : input_params -> Prop) (m : M A) : Prop :=
  forall w s, exists evs,
    events_after s (snd (m w s)) evs /\
    forall model input, In (EvCreate model input) evs -> P input.

(** * Sample worlds, used to run the code on concrete inputs *)

Definition png_bytes : bytes := [ Byte.x89; Byte.x50; Byte.x4e; Byte.x47 ].
Definition jpeg_bytes : bytes := [ Byte.xff; Byte.xd8; Byte.xff; Byte.xe0 ].

Definition sample_image : Image := {| img_mode := "RGBA"; img_data := png_bytes |}.
Definition sample_rgb : Image := {| img_mode := "RGB"; img_data := png_bytes |}.

Definition created_response : http_response :=
  {| status := 201;
     content_type := Some "application/json";
     text := Ok "created";
     body_json := Ok (JObj [ ("id", JStr "f2");
                             ("url", JStr "https://api.replicate.com/v1/files/f2") ]) |}.

Definition metadata_response : http_response :=
  {| status := 200;
     content_type := Some "application/json; charset=utf-8";
     text := Ok "metadata";
     body_json := Ok (JObj [ ("id", JStr "f1") ]) |}.

Definition sample_prediction (st : string) : Prediction :=
  {| pred_id := "p1";
     pred_status := st;
     pred_output := OutStr "https://replicate.delivery/out.jpg";
     pred_error := None |}.

(** A client whose job reports [final] from the poll numbered [polls] on. *)
Definition sample_client (polls : nat) (final : string) : Client :=
  {| files_get := fun _ => Ok (FileBytes png_bytes);
     predictions_create := fun _ _ => Ok (sample_prediction "starting");
     predictions_get := fun n _ =>
       Ok (sample_prediction (if Nat.ltb n polls then "processing" else final)) |}.


Definition sample_world_with (c : Client) : World :=
  {| session_post := fun _ _ _ => Ok created_response;
     session_get := fun _ _ => Ok metadata_response;
     magic_from_buffer := fun _ => Ok "image/png";
     image_open := fun _ => Ok sample_image;
     image_convert := fun _ _ => Ok sample_rgb;
     image_save := fun _ _ _ => Ok jpeg_bytes;
     replicate_Client := fun _ => c;
     now_isoformat := "2025-01-01T00:00:00" |}.

Definition sample_world : World := sample_world_with (sample_client 2 "succeeded").

Definition sample_url : string := "https://api.replicate.com/v1/files/f1".

Definition sample_state : State :=
  {| environ := [ ("REPLICATE_API_TOKEN", "r8_key") ]; trace := [] |}.

(** The generator [__init__] builds in a world, for the key [r8_key]. *)
Definition sample_generator (w : World) : PhotoTransformGenerator :=
  {| api_key := "r8_key";
     styles := init_styles;
     aspect_ratios := init_aspect_ratios;
     aspect_ratio_map := init_aspect_ratio_map;
     resolutions := init_resolutions;
     client := replicate_Client w "r8_key" |}.

(** An answer with status 404. *)
Definition not_found_response : http_response :=
  {| status := 404;
     content_type := Some "application/json";
     text := Ok "Not found";
     body_json := Ok (JObj [ ("detail", JStr "Not found") ]) |}.

(** The sample world, with the metadata request answered by 404. *)
Definition not_found_world : World :=
  {| session_post := session_post sample_world;
     session_get := fun _ _ => Ok not_found_response;
     magic_from_buffer := magic_from_buffer sample_world;
     image_open := image_open sample_world;
     image_convert := image_convert sample_world;
     image_save := image_save sample_world;
     replicate_Client := replicate_Client sample_world;
     now_isoformat := now_isoformat sample_world |}.

(** A client whose [files.get] hands back a file object, not [bytes]. *)
Definition file_object_client : Client :=
  {| files_get := fun _ => Ok (FileOther "<class 'replicate.file.File'>");
     predictions_create := predictions_create (sample_client 2 "succeeded");
     predictions_get := predictions_get (sample_client 2 "succeeded") |}.

(** A run at the sample world with the shorthand ratio [9]. *)
Definition sample_run : outcome (dict value) * State :=
  Eval vm_compute in
    generate_image 3 (sample_generator sample_world) sample_url "lego" 42 "9" "720p"
      sample_world sample_state.


(** A world whose metadata request is refused. *)
Definition refusing_world : World :=
  {| session_post := session_post sample_world;
     session_get := fun _ _ => Raise (Exn "ClientConnectorError" "Cannot connect to host" true);
     magic_from_buffer := magic_from_buffer sample_world;
     image_open := image_open sample_world;
     image_convert := image_convert sample_world;
     image_save := image_save sample_world;
     replicate_Client := replicate_Client sample_world;
     now_isoformat := now_isoformat sample_world |}.

(** The style keyboard of the generator that [__init__] builds. *)
Definition sample_style_keyboard : Keyboard :=
  [ [ style_button "🤍 Фотошоп" "photoshop"; style_button "🎨 AI Art" "art" ];
    [ style_button "🎬 Кино" "cinema"; style_button "🧠 Портрет" "portrait" ];
    [ style_button "⚡ Фантастика" "fantasy"; style_button "🧱 LEGO" "lego" ];
    [ cancel_button ] ].

(** Its aspect-ratio keyboard for the style [lego]. *)
Definition sample_ratio_keyboard : Keyboard :=
  [ [ ratio_button "lego" "9:16"; ratio_button "lego" "4:3"; ratio_button "lego" "3:4" ];
    [ ratio_button "lego" "1:1"; ratio_button "lego" "16:9" ];
    [ cancel_button ] ].

(** The prompt of the style [lego]. *)
Definition lego_prompt : string :=
  Eval vm_compute in
    match dict_get init_styles "lego" with
    | Some cfg => match dict_get cfg "prompt_template" with Some p => p | None => EmptyString end
    | None => EmptyString
    end.

(** The configuration of the style [lego]. *)
Definition lego_config : dict string :=
  Eval vm_compute in
    match dict_get init_styles "lego" with Some cfg => cfg | None => [] end.

Definition sample_uploaded_url : json := JStr "https://api.replicate.com/v1/files/f2".

(** The input of the job of the sample runs, for the ratio [3:4]. *)
Definition sample_input : input_params :=
  job_input lego_prompt "3:4" sample_uploaded_url "720p".

(** The sample state once the job of a sample run has been submitted. *)
Definition sample_job_state (w : World) : State :=
  after_calls sample_state
    (job_calls (sample_generator w) sample_url (JStr "f1") png_bytes sample_image
       sample_rgb jpeg_bytes "r8_key" "runwayml/gen4-image" sample_input).

(** A prediction that failed with an error text. *)
Definition failed_prediction : Prediction :=
  {| pred_id := "p1";
     pred_status := "failed";
     pred_output := OutOther "None";
     pred_error := Some "NSFW content detected" |}.

(** A client whose job fails at the first poll. *)
Definition failing_client : Client :=
  {| files_get := fun _ => Ok (FileBytes png_bytes);
     predictions_create := fun _ _ => Ok (sample_prediction "starting");
     predictions_get := fun _ _ => Ok failed_prediction |}.

Definition failing_world : World := sample_world_with failing_client.

(** An answer of the file store with status 401. *)
Definition unauthorized_response : http_response :=
  {| status := 401;
     content_type := Some "application/json";
     text := Ok "Unauthenticated";
     body_json := Ok (JObj [ ("detail", JStr "Unauthenticated") ]) |}.

(** The sample world, with the upload answered by 401. *)
Definition unauthorized_world : World :=
  {| session_post := fun _ _ _ => Ok unauthorized_response;
     session_get := session_get sample_world;
     magic_from_buffer := magic_from_buffer sample_world;
     image_open := image_open sample_world;
     image_convert := image_convert sample_world;
     image_save := image_save sample_world;
     replicate_Client := replicate_Client sample_world;
     now_isoformat := now_isoformat sample_world |}.

(** A generator with three styles. *)
Definition three_styles_generator : PhotoTransformGenerator :=
  {| api_key := "r8_key";
     styles := [ ("a", [ ("name", "A") ]); ("b", [ ("name", "B") ]); ("c", [ ("name", "C") ]) ];
     aspect_ratios := init_aspect_ratios;
     aspect_ratio_map := init_aspect_ratio_map;
     resolutions := init_resolutions;
     client := replicate_Client sample_world "r8_key" |}.

(** A generator one of whose styles has no name. *)
Definition nameless_style_generator : PhotoTransformGenerator :=
  {| api_key := "r8_key";
     styles := [ ("a", [ ("name", "A") ]); ("b", [ ("model", "m") ]) ];
     aspect_ratios := init_aspect_ratios;
     aspect_ratio_map := init_aspect_ratio_map;
     resolutions := init_resolutions;
     client := replicate_Client sample_world "r8_key" |}.

(** A world in which the task is cancelled while it waits for the metadata. *)
Definition cancelling_world : World :=
  {| session_post := session_post sample_world;
     session_get := fun _ _ => Raise (Exn "CancelledError" EmptyString false);
     magic_from_buffer := magic_from_buffer sample_world;
     image_open := image_open sample_world;
     image_convert := image_convert sample_world;
     image_save := image_save sample_world;
     replicate_Client := replicate_Client sample_world;
     now_isoformat := now_isoformat sample_world |}.

(** The sample state once the job of a run with the shorthand ratio [9] has
    been submitted: the input carries [9:16]. *)
Definition sample_job_state_9 : State :=
  after_calls sample_state
    (job_calls (sample_generator sample_world) sample_url (JStr "f1") png_bytes sample_image
       sample_rgb jpeg_bytes "r8_key" "runwayml/gen4-image"
       (job_input lego_prompt "9:16" sample_uploaded_url "720p")).

(** * Properties *)

(** ** Running monadic code *)

Lemma bind_Returns {A B : Type} (m : M A) (k : A -> M B) w s b s' :
  bind m k w s = (Returns b, s') ->
  exists a s1, m w s = (Returns a, s1) /\ k a w s1 = (Returns b, s').
Proof.
  unfold bind. destruct (m w s) as [[a | e |] s1]; intros H; try discriminate.
  exists a, s1. split; [reflexivity | exact H].
Qed.

Lemma lift_Returns {A : Type} (r : result A) w s a s' :
  lift r w s = (Returns a, s') -> r = Ok a /\ s' = s.
Proof.
  destruct r; cbn; intros H; inversion H; subst; auto.
Qed.

Lemma call_Returns {A : Type} (e : event) (ask : World -> result A) w s a s' :
  call e ask w s = (Returns a, s') -> ask w = Ok a /\ s' = log_event e s.
Proof.
  unfold call. intros H. apply lift_Returns in H. exact H.
Qed.

Lemma call_Ok {A : Type} (e : event) (ask : World -> result A) w s a :
  ask w = Ok a -> call e ask w s = (Returns a, log_event e s).
Proof.
  unfold call. intros ->. reflexivity.
Qed.

Lemma call_Raise {A : Type} (e : event) (ask : World -> result A) w s x :
  ask w = Raise x -> call e ask w s = (Raises x, log_event e s).
Proof.
  unfold call. intros ->. reflexivity.
Qed.

(** [except Exception as e: ...; raise] changes nothing. *)
Lemma try_except_reraise {A : Type} (body : M A) w s :
  try_except body (fun e => raise e) w s = body w s.
Proof.
  unfold try_except, raise. destruct (body w s) as [[a | e |] s1]; try reflexivity.
  destruct (exn_is_exception e); reflexivity.
Qed.

Lemma try_except_Returns {A : Type} (body : M A) (h : exn -> M A) w s a s' :
  body w s = (Returns a, s') -> try_except body h w s = (Returns a, s').
Proof.
  unfold try_except. intros ->. reflexivity.
Qed.

Lemma events_after_nil s : events_after s s [].
Proof. split; [reflexivity | now rewrite app_nil_r]. Qed.

Lemma events_after_log s e : events_after s (log_event e s) [e].
Proof. split; reflexivity. Qed.

Lemma events_after_trans s1 s2 s3 evs1 evs2 :
  events_after s1 s2 evs1 -> events_after s2 s3 evs2 ->
  events_after s1 s3 (evs1 ++ evs2).
Proof.
  intros [E1 T1] [E2 T2]. split.
  - congruence.
  - rewrite T2, T1. now rewrite app_assoc.
Qed.

(** One step of a run whose next answer is known. *)
Ltac run_step := cbv beta iota delta [lift negb ret raise].

(** ** Membership in Python containers *)

Lemma dict_mem_true {V : Type} (k : string) (d : dict V) :
  dict_mem k d = true <-> exists v, dict_get d k = Some v.
Proof.
  unfold dict_mem. destruct (dict_get d k) as [v |]; split; intros H.
  - now exists v.
  - reflexivity.
  - discriminate.
  - destruct H as [v H]. discriminate.
Qed.

Lemma dict_mem_false {V : Type} (k : string) (d : dict V) :
  dict_mem k d = false <-> dict_get d k = None.
Proof.
  unfold dict_mem. destruct (dict_get d k); split; intros H; congruence.
Qed.

(** A subscript [j[k]] succeeds only on a dict that has the key. *)
Lemma py_getitem_Ok (j : json) (k : string) (v : json) :
  py_getitem j k = Ok v <-> exists items, j = JObj items /\ dict_get items k = Some v.
Proof.
  split.
  - destruct j; cbn; try discriminate.
    destruct (dict_get items k) eqn:E; intros H; inversion H; subst.
    now exists items.
  - intros [items [-> H]]. cbn. now rewrite H.
Qed.

Lemma json_has_key_true (k : string) (j : json) :
  json_has_key k j = true <-> exists v, py_getitem j k = Ok v.
Proof.
  split.
  - destruct j; cbn; try discriminate. intros H.
    apply dict_mem_true in H. destruct H as [v H]. exists v. now rewrite H.
  - intros [v H]. apply py_getitem_Ok in H. destruct H as [items [-> H]].
    cbn. apply dict_mem_true. now exists v.
Qed.

(** ** upload_image_to_replicate *)

Lemma upload_image_Returns w s image_bytes filename v s' :
  upload_image_to_replicate image_bytes filename w s = (Returns v, s') ->
  exists token response items,
    dict_get (environ s) "REPLICATE_API_TOKEN" = Some token /\
    session_post w files_endpoint (upload_headers token filename) image_bytes = Ok response /\
    status response = 201 /\
    body_json response = Ok (JObj items) /\
    dict_get items "url" = Some v /\
    s' = log_event (EvPost files_endpoint (upload_headers token filename) image_bytes) s.
Proof.
  unfold upload_image_to_replicate. rewrite try_except_reraise. cbv zeta.
  intros H.
  apply bind_Returns in H. destruct H as [token [s1 [Htok H]]].
  unfold environ_getitem in Htok.
  destruct (dict_get (environ s) "REPLICATE_API_TOKEN") as [t |] eqn:Henv;
    inversion Htok; subst t s1; clear Htok.
  apply bind_Returns in H. destruct H as [response [s2 [Hpost H]]].
  apply call_Returns in Hpost. destruct Hpost as [Hpost ->].
  destruct (status response =? 201) eqn:Hst.
  - apply Z.eqb_eq in Hst.
    apply bind_Returns in H. destruct H as [data [s3 [Hjson H]]].
    apply lift_Returns in Hjson. destruct Hjson as [Hjson ->].
    apply bind_Returns in H. destruct H as [has_url [s4 [Hin H]]].
    apply lift_Returns in Hin. destruct Hin as [Hin ->].
    destruct has_url; [| discriminate H].
    apply bind_Returns in H. destruct H as [u [s5 [Hget H]]].
    apply lift_Returns in Hget. destruct Hget as [Hget ->].
    inversion H; subst u s'; clear H.
    apply py_getitem_Ok in Hget. destruct Hget as [items [-> Hget]].
    exists token, response, items. repeat split; assumption.
  - apply bind_Returns in H. destruct H as [error_text [s3 [_ H]]]. discriminate H.
Qed.

Lemma upload_image_accepted w s image_bytes filename v :
  upload_accepted w s image_bytes filename v ->
  exists token,
    dict_get (environ s) "REPLICATE_API_TOKEN" = Some token /\
    upload_image_to_replicate image_bytes filename w s =
      (Returns v, log_event (EvPost files_endpoint (upload_headers token filename) image_bytes) s).
Proof.
  intros [token [response [items [Henv [Hpost [Hst [Hjson Hurl]]]]]]].
  exists token. split; [exact Henv |].
  unfold upload_image_to_replicate. rewrite try_except_reraise. cbv zeta.
  unfold bind at 1. unfold environ_getitem. rewrite Henv.
  unfold bind at 1. rewrite (call_Ok _ _ _ _ _ Hpost).
  rewrite Hst. cbn [Z.eqb Pos.eqb].
  unfold bind. rewrite Hjson. cbn. unfold dict_mem. rewrite Hurl. cbn.
  reflexivity.
Qed.

(** The upload never ends without an answer: it returns or raises. *)
Lemma upload_image_total w s image_bytes filename :
  (exists v s', upload_image_to_replicate image_bytes filename w s = (Returns v, s')) \/
  (exists e s', upload_image_to_replicate image_bytes filename w s = (Raises e, s')).
Proof.
  unfold upload_image_to_replicate. rewrite try_except_reraise. cbv zeta.
  unfold bind, environ_getitem, call, lift, ret, raise.
  destruct (dict_get (environ s) "REPLICATE_API_TOKEN"); [| right; eauto].
  destruct (session_post w _ _ _) as [response |]; [| right; eauto].
  destruct (status response =? 201).
  - destruct (body_json response) as [data |]; [| right; eauto].
    destruct (py_in "url" data) as [[|] |]; [| right; eauto | right; eauto].
    destruct (py_getitem data "url"); [left | right]; eauto.
  - destruct (text response); right; eauto.
Qed.

(** C3. [upload_image_to_replicate] returns the value under ['url'] of the
    JSON answer exactly when the POST is answered with status 201 and a JSON
    object that has the key ['url']; in every other case it raises: in
    particular for any other status and for a 201 answer without ['url']. *)
Theorem upload_returns_url_exactly_when_created w s image_bytes filename :
  (forall v,
     (exists s', upload_image_to_replicate image_bytes filename w s = (Returns v, s'))
     <-> upload_accepted w s image_bytes filename v) /\
  ((forall v, ~ upload_accepted w s image_bytes filename v) ->
   exists e s', upload_image_to_replicate image_bytes filename w s = (Raises e, s')) /\
  (forall token response,
     dict_get (environ s) "REPLICATE_API_TOKEN" = Some token ->
     session_post w files_endpoint (upload_headers token filename) image_bytes = Ok response ->
     status response <> 201 \/ body_has_key "url" response = false ->
     exists e s', upload_image_to_replicate image_bytes filename w s = (Raises e, s')).
Proof.
  assert (Hraise : (forall v, ~ upload_accepted w s image_bytes filename v) ->
            exists e s', upload_image_to_replicate image_bytes filename w s = (Raises e, s')).
  { intros Hnot.
    destruct (upload_image_total w s image_bytes filename) as [[v [s' H]] | H]; [| exact H].
    exfalso. apply (Hnot v).
    apply upload_image_Returns in H.
    destruct H as [token [response [items [H1 [H2 [H3 [H4 [H5 _]]]]]]]].
    exists token, response, items. auto. }
  split; [| split].
  - intros v. split.
    + intros [s' H]. apply upload_image_Returns in H.
      destruct H as [token [response [items [H1 [H2 [H3 [H4 [H5 _]]]]]]]].
      exists token, response, items. auto.
    + intros H. destruct (upload_image_accepted _ _ _ _ _ H) as [token [_ Hrun]]. eauto.
  - exact Hraise.
  - intros token response Henv Hpost Hbad. apply Hraise.
    intros v [token' [response' [items [Henv' [Hpost' [Hst [Hjson Hurl]]]]]]].
    rewrite Henv in Henv'. inversion Henv'; subst token'.
    rewrite Hpost in Hpost'. inversion Hpost'; subst response'.
    destruct Hbad as [Hbad | Hbad]; [contradiction |].
    unfold body_has_key in Hbad. rewrite Hjson in Hbad. cbn in Hbad.
    apply dict_mem_false in Hbad. congruence.
Qed.

(** C3 at the sample world: the 201 answer carries a ['url'], which is returned. *)
Lemma upload_returns_url_witness :
  exists s', upload_image_to_replicate jpeg_bytes "processed.jpg" sample_world sample_state =
             (Returns (JStr "https://api.replicate.com/v1/files/f2"), s').
Proof.
  apply (proj1 (upload_returns_url_exactly_when_created
                  sample_world sample_state jpeg_bytes "processed.jpg")).
  exists "r8_key", created_response,
    [ ("id", JStr "f2"); ("url", JStr "https://api.replicate.com/v1/files/f2") ].
  repeat split; reflexivity.
Defined.

(** ** download_image *)

Lemma download_image_Returns w s api_key url client content s' :
  download_image api_key url client w s = (Returns content, s') ->
  exists response file_id file_type,
    session_get w url (download_headers api_key) = Ok response /\
    metadata_resolved response file_id /\
    files_get client file_id = Ok (FileBytes content) /\
    magic_from_buffer w content = Ok file_type /\
    startswith file_type "image/" = true /\
    events_after s s'
      [ EvGet url (download_headers api_key); EvFilesGet file_id; EvMagic content ].
Proof.
  unfold download_image. rewrite try_except_reraise. cbv zeta.
  intros H.
  apply bind_Returns in H. destruct H as [response [s1 [Hget H]]].
  apply call_Returns in Hget. destruct Hget as [Hget ->].
  apply bind_Returns in H. destruct H as [file_id [s2 [Hid H]]].
  assert (Hmeta : metadata_resolved response file_id /\
                  s2 = log_event (EvGet url (download_headers api_key)) s).
  { destruct (status response =? 200) eqn:Hst.
    - apply Z.eqb_eq in Hst.
      destruct (startswith (content_type_or_empty response) "application/json") eqn:Hct;
        cbn [negb] in Hid; [| discriminate Hid].
      apply bind_Returns in Hid. destruct Hid as [metadata [s3 [Hjson Hid]]].
      apply lift_Returns in Hjson. destruct Hjson as [Hjson ->].
      apply bind_Returns in Hid. destruct Hid as [has_id [s4 [Hin Hid]]].
      apply lift_Returns in Hin. destruct Hin as [Hin ->].
      destruct has_id; cbn [negb] in Hid; [| discriminate Hid].
      apply lift_Returns in Hid. destruct Hid as [Hid ->].
      apply py_getitem_Ok in Hid. destruct Hid as [items [-> Hid]].
      split; [| reflexivity].
      split; [exact Hst |]. split; [exact Hct |]. now exists items.
    - apply bind_Returns in Hid. destruct Hid as [error_text [s3 [_ Hid]]].
      discriminate Hid. }
  destruct Hmeta as [Hmeta ->]. clear Hid.
  apply bind_Returns in H. destruct H as [fc [s3 [Hfile H]]].
  apply call_Returns in Hfile. destruct Hfile as [Hfile ->].
  destruct fc as [bs | type_repr]; [| discriminate H].
  apply bind_Returns in H. destruct H as [file_type [s4 [Hmagic H]]].
  apply call_Returns in Hmagic. destruct Hmagic as [Hmagic ->].
  destruct (startswith file_type "image/") eqn:Himg; cbn [negb] in H; [| discriminate H].
  inversion H; subst bs s'; clear H.
  exists response, file_id, file_type.
  split; [exact Hget |]. split; [exact Hmeta |]. split; [exact Hfile |].
  split; [exact Hmagic |]. split; [exact Himg |].
  split; cbn; [reflexivity |]. now rewrite <- !app_assoc.
Qed.


(** What the checks of [download_image] do with the fetched content. *)
Lemma download_image_after_files_get w s api_key url client response file_id fc :
  session_get w url (download_headers api_key) = Ok response ->
  metadata_resolved response file_id ->
  files_get client file_id = Ok fc ->
  match fc with
  | FileOther _ =>
      exists e s', download_image api_key url client w s = (Raises e, s')
  | FileBytes content =>
      match magic_from_buffer w content with
      | Ok file_type =>
          if startswith file_type "image/" then
            exists s', download_image api_key url client w s = (Returns content, s')
          else
            exists e s', download_image api_key url client w s = (Raises e, s')
      | Raise _ =>
          exists e s', download_image api_key url client w s = (Raises e, s')
      end
  end.
Proof.
  intros Hget [Hst [Hct [items [Hjson Hid]]]] Hfile.
  assert (Hmem : dict_mem "id" items = true) by (apply dict_mem_true; eauto).
  unfold download_image. rewrite try_except_reraise. cbv zeta.
  unfold bind, call. rewrite Hget. run_step.
  rewrite Hst. cbn [Z.eqb Pos.eqb]. rewrite Hct. run_step.
  rewrite Hjson. cbn [py_in]. run_step. rewrite Hmem. cbn [py_getitem]. run_step.
  rewrite Hid. run_step. rewrite Hfile. run_step.
  destruct fc as [content | type_repr]; [| eauto].
  destruct (magic_from_buffer w content) as [file_type | e]; run_step; [| eauto].
  destruct (startswith file_type "image/"); run_step; eauto.
Qed.



(** C5. Whenever [download_image] returns, the result is the [bytes] value
    that [client.files.get] gave and its detected MIME type starts with
    [image/]; for fetched content that is not [bytes], or whose MIME type
    does not start with [image/], it raises. *)
Theorem download_image_validates_image w s api_key url client :
  (forall content s',
     download_image api_key url client w s = (Returns content, s') ->
     exists file_id file_type,
       files_get client file_id = Ok (FileBytes content) /\
       magic_from_buffer w content = Ok file_type /\
       startswith file_type "image/" = true) /\
  (forall response file_id fc,
     session_get w url (download_headers api_key) = Ok response ->
     metadata_resolved response file_id ->
     files_get client file_id = Ok fc ->
     is_image_bytes w fc = false ->
     exists e s', download_image api_key url client w s = (Raises e, s')).
Proof.
  split.
  - intros content s' H. apply download_image_Returns in H.
    destruct H as [response [file_id [file_type [_ [_ [H3 [H4 [H5 _]]]]]]]].
    exists file_id, file_type. auto.
  - intros response file_id fc Hget Hmeta Hfile Hbad.
    pose proof (download_image_after_files_get w s api_key url client
                  response file_id fc Hget Hmeta Hfile) as H.
    destruct fc as [content | type_repr]; [| exact H].
    cbn in Hbad. destruct (magic_from_buffer w content) as [file_type | e]; [| exact H].
    rewrite Hbad in H. exact H.
Qed.

(** C5 at the sample world: PNG bytes are returned, a file object is refused. *)
Lemma download_image_validates_witness :
  (exists file_id file_type,
     files_get (sample_client 2 "succeeded") file_id = Ok (FileBytes png_bytes) /\
     magic_from_buffer sample_world png_bytes = Ok file_type /\
     startswith file_type "image/" = true) /\
  (exists e s',
     download_image "r8_key" sample_url file_object_client sample_world sample_state
       = (Raises e, s')).
Proof.
  split.
  - apply (proj1 (download_image_validates_image sample_world sample_state "r8_key"
                    sample_url (sample_client 2 "succeeded")) png_bytes
             (snd (download_image "r8_key" sample_url (sample_client 2 "succeeded")
                     sample_world sample_state))).
    reflexivity.
  - apply (proj2 (download_image_validates_image sample_world sample_state "r8_key"
                    sample_url file_object_client)
             metadata_response (JStr "f1") (FileOther "<class 'replicate.file.File'>")).
    + reflexivity.
    + split; [reflexivity |]. split; [reflexivity |].
      exists [ ("id", JStr "f1") ]. split; reflexivity.
    + reflexivity.
    + reflexivity.
Defined.

(** ** The polling loop *)

Lemma last_cons_default {A : Type} (l : list A) : forall x d : A,
  last (x :: l) d = last l x.
Proof.
  induction l as [| a l IH]; intros x d; [reflexivity |].
  change (last (x :: a :: l) d) with (last (a :: l) d).
  now rewrite (IH a d), (IH a x).
Qed.

Lemma str_in_terminal (st : string) :
  str_in st terminal_statuses = true <->
  st = "succeeded" \/ st = "failed" \/ st = "canceled".
Proof.
  unfold str_in, terminal_statuses. cbn [existsb].
  rewrite !orb_true_iff, !String.eqb_eq. intuition discriminate.
Qed.

Lemma wait_for_completion_terminal fuel self n p w s :
  str_in (pred_status p) terminal_statuses = true ->
  wait_for_completion fuel self n p w s = (Returns p, s).
Proof.
  intros H. destruct fuel; cbn [wait_for_completion]; rewrite H; reflexivity.
Qed.

Lemma wait_for_completion_continues fuel self n p :
  str_in (pred_status p) terminal_statuses = false ->
  wait_for_completion (S fuel) self n p =
    (asyncio_sleep 2 ;;
     p' <- call (EvPredGet (pred_id p))
                (fun _ => predictions_get (client self) n (pred_id p)) ;;
     wait_for_completion fuel self (S n) p').
Proof.
  intros H. cbn [wait_for_completion]. rewrite H. reflexivity.
Qed.

Lemma wait_for_completion_Returns fuel self : forall n p w s p' s',
  wait_for_completion fuel self n p w s = (Returns p', s') ->
  exists fetched,
    poll_chain (client self) n p fetched /\
    p' = last fetched p /\
    str_in (pred_status p') terminal_statuses = true /\
    (length fetched <= fuel)%nat /\
    events_after s s' (poll_events p fetched).
Proof.
  induction fuel as [| fuel IH]; intros n p w s p' s' H.
  - cbn [wait_for_completion] in H.
    destruct (str_in (pred_status p) terminal_statuses) eqn:Hterm; cbn [negb] in H;
      [| discriminate H].
    inversion H; subst p' s'; clear H.
    exists []. cbn. repeat split; auto. now rewrite app_nil_r.
  - destruct (str_in (pred_status p) terminal_statuses) eqn:Hterm.
    + rewrite (wait_for_completion_terminal _ _ _ _ _ _ Hterm) in H.
      inversion H; subst p' s'; clear H.
      exists []. cbn. repeat split; auto; try lia. now rewrite app_nil_r.
    + rewrite (wait_for_completion_continues _ _ _ _ Hterm) in H.
      apply bind_Returns in H. destruct H as [u [s1 [Hsleep H]]].
      unfold asyncio_sleep in Hsleep.
      apply call_Returns in Hsleep. destruct Hsleep as [_ ->].
      apply bind_Returns in H. destruct H as [q [s2 [Hget H]]].
      apply call_Returns in Hget. destruct Hget as [Hget ->].
      apply IH in H. destruct H as [rest [Hchain [Hlast [Hdone [Hlen Hev]]]]].
      exists (q :: rest). split; [| split; [| split; [| split]]].
      * cbn. auto.
      * rewrite Hlast. symmetry. apply last_cons_default.
      * exact Hdone.
      * cbn. lia.
      * destruct Hev as [Henv Htr]. split; [exact Henv |].
        rewrite Htr. cbn. rewrite <- !app_assoc. reflexivity.
Qed.

Lemma bind_Raises {A B : Type} (m : M A) (k : A -> M B) w s e s' :
  bind m k w s = (Raises e, s') ->
  m w s = (Raises e, s') \/
  exists a s1, m w s = (Returns a, s1) /\ k a w s1 = (Raises e, s').
Proof.
  unfold bind. destruct (m w s) as [[a | e0 |] s1]; intros H.
  - right. eauto.
  - left. inversion H; subst. reflexivity.
  - discriminate H.
Qed.

(** An exception leaves the loop only when a poll raises it. *)
Lemma wait_for_completion_Raises fuel self : forall n p w s e s',
  wait_for_completion fuel self n p w s = (Raises e, s') ->
  exists fetched,
    poll_chain (client self) n p fetched /\
    str_in (pred_status (last fetched p)) terminal_statuses = false /\
    predictions_get (client self) (n + length fetched) (pred_id (last fetched p)) = Raise e.
Proof.
  induction fuel as [| fuel IH]; intros n p w s e s' H.
  - cbn [wait_for_completion] in H.
    destruct (str_in (pred_status p) terminal_statuses); discriminate H.
  - destruct (str_in (pred_status p) terminal_statuses) eqn:Hterm.
    + rewrite (wait_for_completion_terminal _ _ _ _ _ _ Hterm) in H. discriminate H.
    + rewrite (wait_for_completion_continues _ _ _ _ Hterm) in H.
      apply bind_Raises in H. destruct H as [H | [u [s1 [_ H]]]];
        [unfold asyncio_sleep, call in H; discriminate H |].
      apply bind_Raises in H. destruct H as [H | [q [s2 [Hget H]]]].
      * exists []. cbn. rewrite Nat.add_0_r. repeat split; [exact Hterm |].
        unfold call in H. destruct (predictions_get (client self) n (pred_id p));
          inversion H; reflexivity.
      * apply call_Returns in Hget. destruct Hget as [Hget _].
        apply IH in H. destruct H as [rest [Hchain [Hopen Hraise]]].
        exists (q :: rest). rewrite last_cons_default. split; [| split].
        -- cbn. auto.
        -- exact Hopen.
        -- cbn [length]. rewrite Nat.add_succ_r. exact Hraise.
Qed.

(** C2, refuted as stated: a prediction whose status is [canceled] leaves the
    loop at once, without a poll. *)
Lemma polling_stops_at_canceled :
  wait_for_completion 0 (sample_generator sample_world) 0
    (sample_prediction "canceled") sample_world sample_state =
    (Returns (sample_prediction "canceled"), sample_state) /\
  ~ exits_only_at_succeeded_or_failed.
Proof.
  split; [reflexivity |].
  intros H.
  specialize (H 0%nat (sample_generator sample_world) 0%nat
                (sample_prediction "canceled") sample_world sample_state
                (sample_prediction "canceled") sample_state eq_refl).
  destruct H as [H | H]; discriminate H.
Qed.

(** C2, amended: the loop ends only at one of the three statuses
    [succeeded], [failed], [canceled], and then at once; at any other status
    an iteration sleeps two seconds, fetches the prediction again by the id
    of the one at hand and goes on with what it fetched, so the loop ends
    after one fetch per iteration.  Only a poll that raises takes control
    out of the loop otherwise. *)
Theorem polling_exits_at_terminal_status fuel self n p :
  (forall w s p' s',
     wait_for_completion fuel self n p w s = (Returns p', s') ->
     (pred_status p' = "succeeded" \/ pred_status p' = "failed" \/
      pred_status p' = "canceled") /\
     exists fetched,
       poll_chain (client self) n p fetched /\
       p' = last fetched p /\
       events_after s s' (poll_events p fetched)) /\
  (pred_status p = "succeeded" \/ pred_status p = "failed" \/ pred_status p = "canceled" ->
   forall w s, wait_for_completion fuel self n p w s = (Returns p, s)) /\
  (~ (pred_status p = "succeeded" \/ pred_status p = "failed" \/
      pred_status p = "canceled") ->
   wait_for_completion (S fuel) self n p =
     (asyncio_sleep 2 ;;
      p' <- call (EvPredGet (pred_id p))
                 (fun _ => predictions_get (client self) n (pred_id p)) ;;
      wait_for_completion fuel self (S n) p')) /\
  (forall w s e s',
     wait_for_completion fuel self n p w s = (Raises e, s') ->
     exists fetched,
       poll_chain (client self) n p fetched /\
       predictions_get (client self) (n + length fetched) (pred_id (last fetched p))
         = Raise e).
Proof.
  split; [| split; [| split]].
  4:{ intros w s e s' H. apply wait_for_completion_Raises in H.
      destruct H as [fetched [Hchain [_ Hraise]]]. now exists fetched. }
  - intros w s p' s' H. apply wait_for_completion_Returns in H.
    destruct H as [fetched [Hchain [Hlast [Hdone [_ Hev]]]]].
    split; [now apply str_in_terminal |]. now exists fetched.
  - intros H w s. apply wait_for_completion_terminal. now apply str_in_terminal.
  - intros H. apply wait_for_completion_continues.
    destruct (str_in (pred_status p) terminal_statuses) eqn:E; [| reflexivity].
    exfalso. apply H. now apply str_in_terminal.
Qed.

(** C2 amended, on a job that is canceled when the second poll comes back. *)
Lemma polling_exits_witness :
  wait_for_completion 3 (sample_generator (sample_world_with (sample_client 1 "canceled")))
    0 (sample_prediction "starting")
    (sample_world_with (sample_client 1 "canceled")) sample_state =
  (Returns (sample_prediction "canceled"),
   {| environ := environ sample_state;
      trace := [ EvSleep 2; EvPredGet "p1"; EvSleep 2; EvPredGet "p1" ] |}).
Proof.
  rewrite (proj1 (proj2 (proj2 (polling_exits_at_terminal_status 2
             (sample_generator (sample_world_with (sample_client 1 "canceled")))
             0 (sample_prediction "starting"))))).
  - reflexivity.
  - cbn. intros [H | [H | H]]; discriminate H.
Defined.

(** ** generate_image *)

Lemma try_except_inv {A : Type} (body : M A) (h : exn -> M A) w s o s' :
  try_except body h w s = (o, s') ->
  (exists a, body w s = (Returns a, s') /\ o = Returns a) \/
  (exists e s1, body w s = (Raises e, s1) /\ exn_is_exception e = true /\
                h e w s1 = (o, s')) \/
  (exists e, body w s = (Raises e, s') /\ exn_is_exception e = false /\ o = Raises e) \/
  (body w s = (OutOfFuel, s') /\ o = OutOfFuel).
Proof.
  unfold try_except. destruct (body w s) as [[a | e |] s1]; intros H.
  - inversion H; subst. left. eauto.
  - destruct (exn_is_exception e) eqn:E.
    + right. left. eauto.
    + inversion H; subst. right. right. left. eauto.
  - inversion H; subst. right. right. right. auto.
Qed.

(** A handler that raises again lets only the body's own value through. *)
Lemma try_except_raise_Returns {A : Type} (body : M A) (f : exn -> exn) w s a s' :
  try_except body (fun e => raise (f e)) w s = (Returns a, s') ->
  body w s = (Returns a, s').
Proof.
  unfold try_except, raise. destruct (body w s) as [[b | e |] s1];
    try destruct (exn_is_exception e); intros H; inversion H; subst; reflexivity.
Qed.

Lemma normalize_if (self : PhotoTransformGenerator) (aspect_ratio : string) :
  (if dict_mem aspect_ratio (aspect_ratio_map self) then
     match dict_get (aspect_ratio_map self) aspect_ratio with
     | Some a => a
     | None => aspect_ratio
     end
   else aspect_ratio) = normalized_ratio self aspect_ratio.
Proof.
  unfold dict_mem, normalized_ratio.
  destruct (dict_get (aspect_ratio_map self) aspect_ratio); reflexivity.
Qed.

Lemma dict_getitem_Ok {V : Type} (d : dict V) (k : string) (v : V) :
  dict_getitem d k = Ok v -> dict_get d k = Some v.
Proof.
  unfold dict_getitem. destruct (dict_get d k); intros H; inversion H; reflexivity.
Qed.

Lemma events_after_environ s s' evs k :
  events_after s s' evs -> dict_get (environ s') k = dict_get (environ s) k.
Proof. intros [E _]. now rewrite E. Qed.

Ltac bind_inv H x s Hx :=
  apply bind_Returns in H; destruct H as [x [s [Hx H]]].

Lemma generate_image_Returns fuel self image_url style user_id aspect_ratio resolution
    w s d s' :
  generate_image fuel self image_url style user_id aspect_ratio resolution w s
    = (Returns d, s') ->
  (exists style_config final style_name,
     generation_steps self image_url style aspect_ratio resolution w s s' style_config final /\
     pred_status final = "succeeded" /\
     dict_get style_config "name" = Some style_name /\
     d = success_dict final style style_name (now_isoformat w)) \/
  (exists err, d = failure_dict err style (now_isoformat w)).
Proof.
  unfold generate_image. intros H.
  apply try_except_inv in H.
  destruct H as [[d' [Hb Ho]] | [[e [s1 [_ [_ Hh]]]] | [[e [_ [_ Ho]]] | [_ Ho]]]];
    [| | discriminate Ho | discriminate Ho].
  2:{ right. exists (exn_str e). unfold bind, datetime_now_isoformat, ret in Hh.
      now inversion Hh. }
  inversion Ho; subst d'; clear Ho.
  destruct (dict_mem style (styles self)) eqn:Hstyle;
    cbv beta iota delta [negb] in Hb; [| discriminate Hb].
  cbv zeta in Hb. rewrite !normalize_if in Hb.
  destruct (dict_mem (normalized_ratio self aspect_ratio) (aspect_ratios self)) eqn:Hratio;
    cbv beta iota delta [negb] in Hb; [| discriminate Hb].
  destruct (dict_mem resolution (resolutions self)) eqn:Hres;
    cbv beta iota delta [negb] in Hb; [| discriminate Hb].
  bind_inv Hb style_config s1 Hcfg.
  apply lift_Returns in Hcfg. destruct Hcfg as [Hcfg ->]. apply dict_getitem_Ok in Hcfg.
  bind_inv Hb image_bytes s2 Hdl.
  apply download_image_Returns in Hdl.
  destruct Hdl as [response [file_id [file_type [Hget [Hmeta [Hfile [Hmagic [Himg Hev1]]]]]]]].
  bind_inv Hb img s3 Hopen.
  apply try_except_raise_Returns in Hopen.
  apply call_Returns in Hopen. destruct Hopen as [Hopen ->].
  bind_inv Hb rgb s4 Hconv.
  apply call_Returns in Hconv. destruct Hconv as [Hconv ->].
  bind_inv Hb processed s5 Hsave.
  apply call_Returns in Hsave. destruct Hsave as [Hsave ->].
  bind_inv Hb processed_url s6 Hup.
  pose proof Hup as Hup'.
  apply upload_image_Returns in Hup'.
  destruct Hup' as [token [resp2 [items2 [Htok [Hpost [Hst2 [Hjs2 [Hurl ->]]]]]]]].
  cbn [environ log_event] in Htok.
  rewrite (events_after_environ _ _ _ _ Hev1) in Htok.
  bind_inv Hb prompt_template s7 Hprompt.
  apply lift_Returns in Hprompt. destruct Hprompt as [Hprompt ->].
  apply dict_getitem_Ok in Hprompt.
  bind_inv Hb model s8 Hmodel.
  apply lift_Returns in Hmodel. destruct Hmodel as [Hmodel ->].
  apply dict_getitem_Ok in Hmodel.
  bind_inv Hb created s9 Hcreate.
  apply call_Returns in Hcreate. destruct Hcreate as [Hcreate ->].
  bind_inv Hb final s10 Hwait.
  apply wait_for_completion_Returns in Hwait.
  destruct Hwait as [fetched [Hchain [Hlast [Hdone [_ Hev2]]]]].
  assert (Hsteps : generation_steps self image_url style aspect_ratio resolution
                     w s s10 style_config final).
  { exists response, file_id, image_bytes, file_type, img, rgb, processed, token,
      processed_url, prompt_template, model, created, fetched.
    repeat (split; [assumption |]).
    split.
    { exists token, resp2, items2. auto. }
    repeat (split; [assumption |]).
    destruct Hev1 as [E1 T1]. destruct Hev2 as [E2 T2]. split.
    - rewrite E2. cbn. exact E1.
    - rewrite T2. cbn. rewrite T1. rewrite <- !app_assoc. reflexivity. }
  destruct (String.eqb (pred_status final) "succeeded") eqn:Hsucc.
  - apply String.eqb_eq in Hsucc.
    bind_inv Hb style_name s11 Hname.
    apply lift_Returns in Hname. destruct Hname as [Hname ->].
    apply dict_getitem_Ok in Hname.
    unfold bind, datetime_now_isoformat, ret in Hb. inversion Hb; subst d s'; clear Hb.
    left. exists style_config, final, style_name. auto.
  - right. unfold bind, datetime_now_isoformat, ret in Hb.
    inversion Hb; subst d s'; clear Hb. eauto.
Qed.

Lemma poll_events_no_create : forall fetched p,
  filter is_create (poll_events p fetched) = [].
Proof.
  induction fetched as [| q rest IH]; intros p; cbn; auto.
Qed.

(** C1. A call of [generate_image] that returns a result with
    ["success": True] has validated the style key and the normalized aspect
    ratio, downloaded the source bytes with [download_image], re-encoded them
    to RGB JPEG at quality 95, uploaded the re-encoded bytes with
    [upload_image_to_replicate], submitted exactly one generation job whose
    input carries the style's [prompt_template], the chosen aspect ratio and
    the re-uploaded URL as reference image, and polled that job until it
    reported [succeeded]; its calls were made in this order. *)
Theorem generate_image_success_steps fuel self image_url style user_id aspect_ratio
    resolution w s d s' :
  generate_image fuel self image_url style user_id aspect_ratio resolution w s
    = (Returns d, s') ->
  dict_get d "success" = Some (VBool true) ->
  exists style_config final,
    generation_steps self image_url style aspect_ratio resolution w s s' style_config final /\
    pred_status final = "succeeded" /\
    exists evs, events_after s s' evs /\ length (filter is_create evs) = 1%nat.
Proof.
  intros H Hsucc. apply generate_image_Returns in H.
  destruct H as [[style_config [final [style_name [Hsteps [Hfinal [_ _]]]]]] | [err ->]];
    [| discriminate Hsucc].
  exists style_config, final. split; [exact Hsteps |]. split; [exact Hfinal |].
  destruct Hsteps as (response & file_id & image_bytes & file_type & img & rgb & processed
                      & token & processed_url & prompt_template & model & created & fetched
                      & Hrest).
  repeat match type of Hrest with _ /\ _ => destruct Hrest as [_ Hrest] end.
  eexists. split; [exact Hrest |].
  rewrite filter_app, poll_events_no_create. reflexivity.
Qed.

(** C1 on a run at the sample world, with the shorthand ratio ["9"]. *)
Lemma generate_image_success_witness :
  exists style_config final,
    generation_steps (sample_generator sample_world) sample_url "lego" "9" "720p"
      sample_world sample_state (snd sample_run) style_config final /\
    pred_status final = "succeeded" /\
    exists evs, events_after sample_state (snd sample_run) evs /\
                length (filter is_create evs) = 1%nat.
Proof.
  apply (generate_image_success_steps 3 (sample_generator sample_world) sample_url
           "lego" 42 "9" "720p" sample_world sample_state
           (success_dict (sample_prediction "succeeded") "lego" "🧱 LEGO"
              "2025-01-01T00:00:00")).
  - vm_compute. reflexivity.
  - reflexivity.
Defined.

(** *** Validation of the arguments *)

(** Any of the three checks failing ends the call with a failure result and
    without a single call to the outside. *)
Lemma generate_image_invalid fuel self image_url style user_id aspect_ratio resolution w s :
  dict_mem style (styles self) = false \/
  dict_mem (normalized_ratio self aspect_ratio) (aspect_ratios self) = false \/
  dict_mem resolution (resolutions self) = false ->
  exists err,
    generate_image fuel self image_url style user_id aspect_ratio resolution w s =
      (Returns (failure_dict err style (now_isoformat w)), s).
Proof.
  intros Hbad. unfold generate_image, try_except. cbv zeta. rewrite !normalize_if.
  destruct (dict_mem style (styles self)); run_step; [| eexists; reflexivity].
  destruct (dict_mem (normalized_ratio self aspect_ratio) (aspect_ratios self));
    run_step; [| eexists; reflexivity].
  destruct (dict_mem resolution (resolutions self)); run_step; [| eexists; reflexivity].
  destruct Hbad as [Hbad | [Hbad | Hbad]]; discriminate Hbad.
Qed.

Lemma init_aspect_ratio_map_cases (a v : string) :
  dict_get init_aspect_ratio_map a = Some v ->
  (a = "9" /\ v = "9:16") \/ (a = "16" /\ v = "16:9") \/ (a = "4" /\ v = "4:3") \/
  (a = "3" /\ v = "3:4") \/ (a = "1" /\ v = "1:1").
Proof.
  unfold init_aspect_ratio_map. cbn [dict_get].
  repeat match goal with
         | |- context [String.eqb a ?k] => destruct (String.eqb_spec a k)
         end; intros H; inversion H; subst; tauto.
Qed.

Lemma init_aspect_ratios_mem (r : string) :
  dict_mem r init_aspect_ratios = true <->
  In r [ "9:16"; "4:3"; "3:4"; "1:1"; "16:9" ].
Proof.
  unfold dict_mem, init_aspect_ratios. cbn [dict_get In].
  repeat match goal with
         | |- context [String.eqb r ?k] => destruct (String.eqb_spec r k)
         end; split; intros H; try reflexivity; try discriminate;
    intuition congruence.
Qed.

Lemma normalized_ratio_idempotent self a :
  aspect_ratio_map self = init_aspect_ratio_map ->
  normalized_ratio self (normalized_ratio self a) = normalized_ratio self a.
Proof.
  intros Hmap.
  assert (Hn : normalized_ratio self a =
               match dict_get init_aspect_ratio_map a with Some v => v | None => a end)
    by (unfold normalized_ratio; now rewrite Hmap).
  rewrite Hn. unfold normalized_ratio. rewrite Hmap.
  destruct (dict_get init_aspect_ratio_map a) as [v |] eqn:E.
  - apply init_aspect_ratio_map_cases in E.
    destruct E as [[_ ->] | [[_ ->] | [[_ ->] | [[_ ->] | [_ ->]]]]]; reflexivity.
  - now rewrite E.
Qed.

(** C10. With the table of [__init__], whose only entry is ["720p"], a call
    with any other resolution gives a failure result with ["success": False]
    and makes no call to the outside: nothing is downloaded, uploaded or
    submitted. *)
Theorem only_720p_accepted fuel self image_url style user_id aspect_ratio resolution w s :
  resolutions self = init_resolutions ->
  resolution <> "720p" ->
  init_resolutions = [ ("720p", "720p") ] /\
  exists err,
    generate_image fuel self image_url style user_id aspect_ratio resolution w s =
      (Returns (failure_dict err style (now_isoformat w)), s) /\
    dict_get (failure_dict err style (now_isoformat w)) "success" = Some (VBool false).
Proof.
  intros Hres Hneq. split; [reflexivity |].
  destruct (generate_image_invalid fuel self image_url style user_id aspect_ratio
              resolution w s) as [err Hrun].
  - right. right. rewrite Hres. unfold dict_mem, init_resolutions. cbn [dict_get].
    destruct (String.eqb_spec resolution "720p"); [contradiction | reflexivity].
  - exists err. split; [exact Hrun | reflexivity].
Qed.

(** C10 at the sample generator, for the resolution ["1080p"]. *)
Lemma only_720p_accepted_witness :
  exists err,
    generate_image 3 (sample_generator sample_world) sample_url "lego" 42 "3:4" "1080p"
      sample_world sample_state =
      (Returns (failure_dict err "lego" (now_isoformat sample_world)), sample_state) /\
    dict_get (failure_dict err "lego" (now_isoformat sample_world)) "success"
      = Some (VBool false).
Proof.
  apply (only_720p_accepted 3 (sample_generator sample_world) sample_url "lego" 42
           "3:4" "1080p" sample_world sample_state eq_refl).
  discriminate.
Defined.

(** *** Exceptions and answers *)










(** ** Presentation helpers *)

Lemma pure_ret {A : Type} (a : A) : pure_call (ret a).
Proof. exists (Returns a). split; [discriminate | reflexivity]. Qed.

Lemma pure_lift {A : Type} (r : result A) : pure_call (lift r).
Proof.
  destruct r as [a | e]; [exists (Returns a) | exists (Raises e)];
    (split; [discriminate | reflexivity]).
Qed.

Lemma pure_bind {A B : Type} (m : M A) (k : A -> M B) :
  pure_call m -> (forall a, pure_call (k a)) -> pure_call (bind m k).
Proof.
  intros [o [Ho Hm]] Hk. destruct o as [a | e |]; [| | contradiction].
  - destruct (Hk a) as [o' [Ho' Hka]]. exists o'. split; [exact Ho' |].
    intros w s. unfold bind. rewrite Hm. apply Hka.
  - exists (Raises e). split; [discriminate |].
    intros w s. unfold bind. rewrite Hm. reflexivity.
Qed.

Lemma style_keyboard_loop_pure : forall items keyboard row,
  pure_call (style_keyboard_loop items keyboard row).
Proof.
  induction items as [| [style_key style_info] rest IH]; intros keyboard row.
  - apply pure_ret.
  - cbn [style_keyboard_loop]. apply pure_bind; [apply pure_lift |].
    intros name. cbv zeta.
    destruct (Nat.eqb _ 2); apply IH.
Qed.

Lemma style_keyboard_loop_Returns : forall items keyboard row w s kr s',
  style_keyboard_loop items keyboard row w s = (Returns kr, s') ->
  exists buttons,
    Forall2 is_style_button items buttons /\ kr = fill_rows 2 buttons keyboard row.
Proof.
  induction items as [| [style_key style_info] rest IH]; intros keyboard row w s kr s' H.
  - inversion H; subst. exists []. split; [constructor | reflexivity].
  - cbn [style_keyboard_loop] in H.
    bind_inv H name s1 Hname.
    apply lift_Returns in Hname. destruct Hname as [Hname ->].
    apply dict_getitem_Ok in Hname. cbv zeta in H.
    assert (Hb : is_style_button (style_key, style_info) (style_button name style_key))
      by (exists name; auto).
    destruct (Nat.eqb (length (row ++ [ style_button name style_key ])) 2) eqn:E;
      unfold style_button in E; rewrite E in H;
      apply IH in H; destruct H as [buttons [HF ->]];
      exists (style_button name style_key :: buttons);
      (split; [constructor; assumption |]);
      cbn [fill_rows]; unfold style_button at 1; rewrite E; reflexivity.
Qed.

Lemma ratio_keyboard_loop_run style_key : forall keys keyboard row w s,
  ratio_keyboard_loop style_key keys keyboard row w s =
    (Returns (fill_rows 3 (map (ratio_button style_key) keys) keyboard row), s).
Proof.
  induction keys as [| ratio_key rest IH]; intros keyboard row w s; [reflexivity |].
  cbn [ratio_keyboard_loop map fill_rows]. cbv zeta. unfold ratio_button at 1 3.
  destruct (Nat.eqb _ 3); apply IH.
Qed.

Lemma resolution_keyboard_loop_run style_key aspect_ratio : forall keys row w s,
  resolution_keyboard_loop style_key aspect_ratio keys row w s =
    (Returns (row ++ map (resolution_button style_key aspect_ratio) keys)%list, s).
Proof.
  induction keys as [| res_key rest IH]; intros row w s.
  - cbn. now rewrite app_nil_r.
  - cbn [resolution_keyboard_loop map]. cbv zeta. rewrite IH.
    unfold resolution_button at 2. now rewrite <- app_assoc.
Qed.

(** Rows filled to [width]: every finished row has [width] buttons, the open
    row has fewer, and no button is lost, repeated or moved. *)
Lemma fill_rows_spec (width : nat) : forall buttons keyboard row,
  (length row < width)%nat ->
  exists new_rows,
    fst (fill_rows width buttons keyboard row) = (keyboard ++ new_rows)%list /\
    Forall (fun r => length r = width) new_rows /\
    (length (snd (fill_rows width buttons keyboard row)) < width)%nat /\
    (concat new_rows ++ snd (fill_rows width buttons keyboard row))%list
      = (row ++ buttons)%list.
Proof.
  induction buttons as [| b rest IH]; intros keyboard row Hrow.
  - exists []. cbn. rewrite !app_nil_r. auto.
  - cbn [fill_rows]. cbv zeta.
    destruct (Nat.eqb (length (row ++ [ b ])) width) eqn:E.
    + apply Nat.eqb_eq in E.
      destruct (IH (keyboard ++ [ row ++ [ b ] ])%list []) as [rows [H1 [H2 [H3 H4]]]];
        [cbn; lia |].
      exists ((row ++ [ b ]) :: rows)%list. split; [| split; [| split]].
      * rewrite H1. now rewrite <- app_assoc.
      * constructor; assumption.
      * exact H3.
      * cbn [concat]. rewrite <- app_assoc, H4. cbn. now rewrite <- app_assoc.
    + apply Nat.eqb_neq in E.
      destruct (IH keyboard (row ++ [ b ])%list) as [rows [H1 [H2 [H3 H4]]]].
      * rewrite length_app in *. cbn in *. lia.
      * exists rows. split; [exact H1 |]. split; [exact H2 |]. split; [exact H3 |].
        rewrite H4. now rewrite <- app_assoc.
Qed.

(** The keyboard finished from filled rows: the button rows, then the
    cancel row. *)
Lemma finish_keyboard_spec (width : nat) (buttons : list Button) :
  (0 < width)%nat ->
  exists rows,
    finish_keyboard (fst (fill_rows width buttons [] [])) (snd (fill_rows width buttons [] []))
      = (rows ++ [ [ cancel_button ] ])%list /\
    Forall (fun r => (1 <= length r <= width)%nat) rows /\
    concat rows = buttons.
Proof.
  intros Hw.
  destruct (fill_rows_spec width buttons [] []) as [rows [H1 [H2 [H3 H4]]]]; [cbn; lia |].
  cbn [app] in H1, H4. rewrite H1. unfold finish_keyboard.
  assert (H2' : Forall (fun r => (1 <= length r <= width)%nat) rows).
  { eapply Forall_impl; [| exact H2]. cbn. intros r Hr. lia. }
  destruct (snd (fill_rows width buttons [] [])) as [| b row] eqn:Hrow.
  - exists rows. rewrite app_nil_r in H4. auto.
  - exists (rows ++ [ b :: row ])%list. split; [reflexivity |]. split.
    + apply Forall_app. split; [exact H2' |]. constructor; [| constructor].
      cbn in *. lia.
    + rewrite concat_app. cbn. now rewrite app_nil_r.
Qed.

(** C8. The presentation helpers [get_style_keyboard],
    [get_aspect_ratio_keyboard], [get_resolution_keyboard],
    [get_style_description] and [get_aspect_ratio_description] are pure: for
    every generator and every argument the outcome of a call is the same in
    every world and process state, so two calls with equal arguments give
    equal results, and a call makes no call to the outside and leaves the
    process state as it was; the generator, an immutable record, is the same
    after the call. *)
Theorem presentation_helpers_pure (self : PhotoTransformGenerator)
    (style style_key aspect_ratio : string) :
  pure_call (get_style_keyboard self) /\
  pure_call (get_aspect_ratio_keyboard self style_key) /\
  pure_call (get_resolution_keyboard self style_key aspect_ratio) /\
  pure_call (get_style_description self style) /\
  pure_call (get_aspect_ratio_description self).
Proof.
  repeat split.
  - unfold get_style_keyboard. apply pure_bind.
    + apply style_keyboard_loop_pure.
    + intros kr. apply pure_ret.
  - eexists. split; [| intros w s; unfold get_aspect_ratio_keyboard, bind;
                       rewrite ratio_keyboard_loop_run; reflexivity].
    discriminate.
  - eexists. split; [| intros w s; unfold get_resolution_keyboard, bind;
                       rewrite resolution_keyboard_loop_run; reflexivity].
    discriminate.
  - apply pure_ret.
  - apply pure_ret.
Qed.

(** C9. Every keyboard that [get_style_keyboard],
    [get_aspect_ratio_keyboard] or [get_resolution_keyboard] returns ends with
    a row of exactly one button, the cancel button, whose [callback_data] is
    [transform_cancel]; the rows before it have one or two buttons in the
    style keyboard and one to three in the aspect-ratio keyboard, and read in
    order they are the buttons of the configured styles (of the configured
    aspect ratios, of the configured resolutions), one button for each entry
    of the dictionary, in its order. *)
Theorem keyboards_end_with_cancel_row (self : PhotoTransformGenerator)
    (style_key aspect_ratio : string) (w : World) (s : State) :
  dict_get cancel_button "callback_data" = Some "transform_cancel" /\
  (forall kb s',
     get_style_keyboard self w s = (Returns kb, s') ->
     exists rows,
       kb = (rows ++ [ [ cancel_button ] ])%list /\
       Forall (fun r => (1 <= length r <= 2)%nat) rows /\
       Forall2 is_style_button (styles self) (concat rows)) /\
  (forall kb s',
     get_aspect_ratio_keyboard self style_key w s = (Returns kb, s') ->
     exists rows,
       kb = (rows ++ [ [ cancel_button ] ])%list /\
       Forall (fun r => (1 <= length r <= 3)%nat) rows /\
       concat rows = map (ratio_button style_key) (dict_keys (aspect_ratios self))) /\
  (forall kb s',
     get_resolution_keyboard self style_key aspect_ratio w s = (Returns kb, s') ->
     exists rows,
       kb = (rows ++ [ [ cancel_button ] ])%list /\
       concat rows =
         map (resolution_button style_key aspect_ratio) (dict_keys (resolutions self))).
Proof.
  split; [reflexivity |]. split; [| split].
  - intros kb s' H. unfold get_style_keyboard in H.
    bind_inv H kr s1 Hloop.
    apply style_keyboard_loop_Returns in Hloop. destruct Hloop as [buttons [HF ->]].
    inversion H; subst kb s'; clear H.
    destruct (finish_keyboard_spec 2 buttons) as [rows [H1 [H2 H3]]]; [lia |].
    exists rows. rewrite H3. auto.
  - intros kb s' H. unfold get_aspect_ratio_keyboard, bind in H.
    rewrite ratio_keyboard_loop_run in H. inversion H; subst kb s'; clear H.
    destruct (finish_keyboard_spec 3
                (map (ratio_button style_key) (dict_keys (aspect_ratios self))))
      as [rows [H1 [H2 H3]]]; [lia |].
    exists rows. auto.
  - intros kb s' H. unfold get_resolution_keyboard, bind in H.
    rewrite resolution_keyboard_loop_run in H. inversion H; subst kb s'; clear H.
    cbn [app]. unfold finish_keyboard.
    destruct (map (resolution_button style_key aspect_ratio) (dict_keys (resolutions self)))
      as [| b row].
    + exists []. split; reflexivity.
    + exists [ b :: row ]. split; [reflexivity |]. cbn. now rewrite app_nil_r.
Qed.

(** C9 on the keyboards of the generator that [__init__] builds. *)
Lemma keyboards_witness :
  (exists rows,
     sample_style_keyboard = (rows ++ [ [ cancel_button ] ])%list /\
     Forall (fun r => (1 <= length r <= 2)%nat) rows /\
     Forall2 is_style_button init_styles (concat rows)) /\
  (exists rows,
     sample_ratio_keyboard = (rows ++ [ [ cancel_button ] ])%list /\
     Forall (fun r => (1 <= length r <= 3)%nat) rows /\
     concat rows = map (ratio_button "lego") (dict_keys init_aspect_ratios)) /\
  (exists rows,
     [ [ resolution_button "lego" "3:4" "720p" ]; [ cancel_button ] ]
       = (rows ++ [ [ cancel_button ] ])%list /\
     concat rows = map (resolution_button "lego" "3:4") (dict_keys init_resolutions)).
Proof.
  pose proof (keyboards_end_with_cancel_row (sample_generator sample_world)
                "lego" "3:4" sample_world sample_state) as [_ [H1 [H2 H3]]].
  split; [| split].
  - apply (H1 sample_style_keyboard sample_state). vm_compute. reflexivity.
  - apply (H2 sample_ratio_keyboard sample_state). vm_compute. reflexivity.
  - apply (H3 _ sample_state). vm_compute. reflexivity.
Defined.

(** ** The generator that [__init__] builds *)

Lemma dict_get_set {V : Type} (d : dict V) (k : string) (v : V) :
  dict_get (dict_set d k v) k = Some v.
Proof.
  induction d as [| [k' v'] d IH]; cbn.
  - now rewrite String.eqb_refl.
  - destruct (String.eqb k k') eqn:E; cbn.
    + now rewrite String.eqb_refl.
    + now rewrite E.
Qed.

(** [__init__] with a key that has no NUL character: it fills the tables,
    keeps the key, exports it to the process environment and makes no call to
    the outside. *)
Lemma init_run (replicate_api_key : string) w s :
  str_contains nul replicate_api_key = false ->
  init replicate_api_key w s =
    (Returns {| api_key := replicate_api_key;
                styles := init_styles;
                aspect_ratios := init_aspect_ratios;
                aspect_ratio_map := init_aspect_ratio_map;
                resolutions := init_resolutions;
                client := replicate_Client w replicate_api_key |},
     {| environ := dict_set (environ s) "REPLICATE_API_TOKEN" replicate_api_key;
        trace := trace s |}).
Proof.
  intros Hnul. unfold init, bind, environ_setitem.
  change (str_contains nul "REPLICATE_API_TOKEN") with false.
  cbn [orb]. rewrite Hnul. reflexivity.
Qed.

(** [__init__] with a key that has a NUL character: the assignment to
    [os.environ] raises, and nothing has changed. *)
Lemma init_nul (replicate_api_key : string) w s :
  str_contains nul replicate_api_key = true ->
  init replicate_api_key w s = (Raises (ValueError "embedded null byte"), s).
Proof.
  intros Hnul. unfold init, bind, environ_setitem.
  change (str_contains nul "REPLICATE_API_TOKEN") with false.
  cbn [orb]. rewrite Hnul. reflexivity.
Qed.

Lemma init_Returns (replicate_api_key : string) w s self s' :
  init replicate_api_key w s = (Returns self, s') ->
  str_contains nul replicate_api_key = false /\
  self = {| api_key := replicate_api_key;
            styles := init_styles;
            aspect_ratios := init_aspect_ratios;
            aspect_ratio_map := init_aspect_ratio_map;
            resolutions := init_resolutions;
            client := replicate_Client w replicate_api_key |} /\
  s' = {| environ := dict_set (environ s) "REPLICATE_API_TOKEN" replicate_api_key;
          trace := trace s |}.
Proof.
  intros H. destruct (str_contains nul replicate_api_key) eqn:Hnul.
  - rewrite (init_nul _ _ _ Hnul) in H. discriminate H.
  - rewrite (init_run _ _ _ Hnul) in H. inversion H; subst. auto.
Qed.

Example init_sample :
  init "r8_key" sample_world {| environ := []; trace := [] |} =
    (Returns (sample_generator sample_world), sample_state).
Proof. reflexivity. Qed.

(** ** Fuel only bounds how long a run is watched *)

Lemma settles_refl {A : Type} (m : M A) : settles m m.
Proof. intros w s o s' H _. exact H. Qed.

Lemma settles_bind {A B : Type} (m m' : M A) (k k' : A -> M B) :
  settles m m' -> (forall a, settles (k a) (k' a)) ->
  settles (bind m k) (bind m' k').
Proof.
  intros Hm Hk w s o s'. unfold bind.
  destruct (m w s) as [[a | e |] s1] eqn:E; intros H Ho.
  - rewrite (Hm w s _ _ E) by discriminate. now apply Hk.
  - rewrite (Hm w s _ _ E) by discriminate. exact H.
  - inversion H; subst. contradiction.
Qed.

Lemma settles_try_except {A : Type} (m m' : M A) (h : exn -> M A) :
  settles m m' -> settles (try_except m h) (try_except m' h).
Proof.
  intros Hm w s o s'. unfold try_except.
  destruct (m w s) as [[a | e |] s1] eqn:E; intros H Ho.
  - rewrite (Hm w s _ _ E) by discriminate. exact H.
  - rewrite (Hm w s _ _ E) by discriminate. exact H.
  - inversion H; subst. contradiction.
Qed.

Lemma wait_for_completion_settles self : forall fuel fuel' n p,
  (fuel <= fuel')%nat ->
  settles (wait_for_completion fuel self n p) (wait_for_completion fuel' self n p).
Proof.
  induction fuel as [| fuel IH]; intros fuel' n p Hle.
  - intros w s o s' H Ho. cbn [wait_for_completion] in H.
    destruct (str_in (pred_status p) terminal_statuses) eqn:Hterm.
    + rewrite (wait_for_completion_terminal _ _ _ _ _ _ Hterm). exact H.
    + inversion H; subst. contradiction.
  - destruct fuel' as [| fuel']; [lia |].
    destruct (str_in (pred_status p) terminal_statuses) eqn:Hterm.
    + intros w s o s' H _.
      rewrite (wait_for_completion_terminal _ _ _ _ _ _ Hterm) in H.
      rewrite (wait_for_completion_terminal _ _ _ _ _ _ Hterm). exact H.
    + rewrite !(wait_for_completion_continues _ _ _ _ Hterm).
      apply settles_bind; [apply settles_refl | intros _].
      apply settles_bind; [apply settles_refl | intros q].
      apply IH. lia.
Qed.

(** A run that has answered within [fuel] iterations gives the same answer
    under every larger bound. *)
Lemma generate_image_settles fuel fuel' self image_url style user_id aspect_ratio resolution :
  (fuel <= fuel')%nat ->
  settles (generate_image fuel self image_url style user_id aspect_ratio resolution)
          (generate_image fuel' self image_url style user_id aspect_ratio resolution).
Proof.
  intros Hle. unfold generate_image. apply settles_try_except. cbv zeta.
  repeat match goal with
         | |- settles (if ?c then _ else _) _ => destruct c; [apply settles_refl |]
         end.
  repeat (apply settles_bind;
          [first [apply settles_refl | now apply wait_for_completion_settles] | intros ?]).
  apply settles_refl.
Qed.

(** * Further properties of the module *)

(** ** The calls of a run come in a fixed order *)

Lemma protocol_app (e1 e2 : list event) : forall i j,
  protocol i e1 = Some j -> protocol i (e1 ++ e2) = protocol j e2.
Proof.
  induction e1 as [| ev rest IH]; intros i j H; cbn in *.
  - now inversion H.
  - destruct (protocol_next i ev); [now apply IH | discriminate H].
Qed.

Lemma follows_ret {A : Type} (i : nat) (a : A) : follows i i (ret a).
Proof.
  intros w s. exists [], i. cbn. split; [apply events_after_nil | auto].
Qed.

Lemma follows_raise {A : Type} (i j : nat) (e : exn) : follows i j (@raise A e).
Proof.
  intros w s. exists [], i. cbn. split; [apply events_after_nil |].
  split; [reflexivity |]. intros a H. discriminate H.
Qed.

Lemma follows_lift {A : Type} (i : nat) (r : result A) : follows i i (lift r).
Proof.
  destruct r; [apply follows_ret | apply follows_raise].
Qed.

Lemma follows_now (i : nat) : follows i i datetime_now_isoformat.
Proof.
  intros w s. exists [], i. cbn. split; [apply events_after_nil | auto].
Qed.

Lemma follows_call {A : Type} (i j : nat) (e : event) (ask : World -> result A) :
  call_kind e = i ->
  j = (if Nat.eqb i 9 then 8%nat else S i) ->
  follows i j (call e ask).
Proof.
  intros Hk -> w s. exists [ e ], (if Nat.eqb i 9 then 8%nat else S i).
  unfold call. destruct (ask w); cbn [lift ret raise fst snd].
  all: split; [apply events_after_log |]; split; [| auto].
  all: cbn; unfold protocol_next; rewrite Hk, Nat.eqb_refl; reflexivity.
Qed.

Lemma follows_bind {A B : Type} (i j l : nat) (m : M A) (k : A -> M B) :
  follows i j m -> (forall a, follows j l (k a)) -> follows i l (bind m k).
Proof.
  intros Hm Hk w s. destruct (Hm w s) as (e1 & k1 & Hev1 & Hp1 & Hr1).
  unfold bind. destruct (m w s) as [[a | e |] s1]; cbn [fst snd] in *.
  - rewrite (Hr1 a eq_refl) in Hp1.
    destruct (Hk a w s1) as (e2 & k2 & Hev2 & Hp2 & Hr2).
    exists (e1 ++ e2)%list, k2. split; [eapply events_after_trans; eassumption |].
    split; [| exact Hr2]. now rewrite (protocol_app _ _ _ _ Hp1).
  - exists e1, k1. split; [exact Hev1 |]. split; [exact Hp1 |].
    intros a H. discriminate H.
  - exists e1, k1. split; [exact Hev1 |]. split; [exact Hp1 |].
    intros a H. discriminate H.
Qed.

Lemma follows_try_reraise {A : Type} (i j : nat) (body : M A) :
  follows i j body -> follows i j (try_except body (fun e => raise e)).
Proof.
  intros H w s. rewrite try_except_reraise. apply H.
Qed.

Lemma follows_try_raise {A : Type} (i j : nat) (body : M A) (f : exn -> exn) :
  follows i j body -> follows i j (try_except body (fun e => raise (f e))).
Proof.
  intros H w s. destruct (H w s) as (evs & k & Hev & Hp & Hr).
  unfold try_except, raise. destruct (body w s) as [[a | e |] s1];
    try destruct (exn_is_exception e); cbn [fst snd] in *;
    exists evs, k; (split; [exact Hev |]); (split; [exact Hp |]);
    first [exact Hr | intros a H0; discriminate H0].
Qed.

Lemma follows_wait fuel self : forall n p,
  follows 8 8 (wait_for_completion fuel self n p).
Proof.
  induction fuel as [| fuel IH]; intros n p; cbn [wait_for_completion];
    destruct (str_in (pred_status p) terminal_statuses); cbn [negb];
    try apply follows_ret.
  - intros w s. exists [], 8%nat. cbn. split; [apply events_after_nil |].
    split; [reflexivity |]. intros a H. discriminate H.
  - eapply follows_bind; [apply follows_call; reflexivity | intros _].
    eapply follows_bind; [apply follows_call; reflexivity | intros q].
    apply IH.
Qed.

(** Walks through code built from the monad's operations; [leaf] closes
    the calls of functions that have their own lemma. *)
Ltac follow_with leaf :=
  lazymatch goal with
  | |- follows _ _ (bind _ _) =>
      eapply follows_bind; [follow_with leaf | intros ?; follow_with leaf]
  | |- follows _ _ (if ?c then _ else _) => destruct c; follow_with leaf
  | |- follows _ _ (match ?x with FileBytes _ => _ | FileOther _ => _ end) =>
      destruct x; follow_with leaf
  | |- follows _ _ (call _ _) => apply follows_call; reflexivity
  | |- follows _ _ (lift _) => apply follows_lift
  | |- follows _ _ (ret _) => apply follows_ret
  | |- follows _ _ (raise _) => apply follows_raise
  | |- follows _ _ datetime_now_isoformat => apply follows_now
  | |- follows _ _ (wait_for_completion _ _ _ _) => apply follows_wait
  | |- follows _ _ (try_except _ (fun e => raise e)) =>
      apply follows_try_reraise; follow_with leaf
  | |- follows _ _ (try_except _ _) => apply follows_try_raise; follow_with leaf
  | |- _ => leaf
  end.

Ltac follow := follow_with fail.

Lemma download_image_follows api_key url client :
  follows 0 3 (download_image api_key url client).
Proof.
  unfold download_image. cbv zeta. follow.
Qed.

Lemma upload_image_follows image_bytes filename :
  follows 6 7 (upload_image_to_replicate image_bytes filename).
Proof.
  unfold upload_image_to_replicate. cbv zeta.
  apply follows_try_reraise.
  apply (follows_bind 6 6 7); [| intros token; follow].
  intros w s. exists [], 6%nat. unfold environ_getitem.
  destruct (dict_get (environ s) "REPLICATE_API_TOKEN"); cbn;
    (split; [apply events_after_nil | auto]).
Qed.

Ltac follow_calls :=
  follow_with ltac:(first [apply download_image_follows | apply upload_image_follows]).

Lemma protocol_once (c : nat) (evs : list event) : forall i k,
  protocol i evs = Some k ->
  (c <= 7)%nat ->
  (count_kind c evs <= (if Nat.leb i c then 1 else 0))%nat.
Proof.
  unfold count_kind.
  induction evs as [| ev rest IH]; intros i k H Hc; cbn [protocol filter length] in *.
  - destruct (Nat.leb i c); lia.
  - unfold protocol_next in H.
    destruct (Nat.eqb (call_kind ev) i) eqn:Ei; [| discriminate H].
    apply Nat.eqb_eq in Ei. subst i.
    specialize (IH _ _ H Hc).
    destruct (Nat.eqb (call_kind ev) c) eqn:Ec.
    + apply Nat.eqb_eq in Ec. cbn [length]. rewrite Ec in *.
      rewrite Nat.leb_refl.
      destruct (Nat.eqb c 9) eqn:E9; [apply Nat.eqb_eq in E9; lia |].
      destruct (Nat.leb (S c) c) eqn:El; [apply Nat.leb_le in El; lia | lia].
    + destruct (Nat.eqb (call_kind ev) 9) eqn:E9.
      * destruct (Nat.leb 8 c) eqn:El; [apply Nat.leb_le in El; lia |].
        destruct (Nat.leb (call_kind ev) c); lia.
      * destruct (Nat.leb (S (call_kind ev)) c) eqn:El.
        -- apply Nat.leb_le in El.
           destruct (Nat.leb (call_kind ev) c) eqn:El';
             [lia | apply Nat.leb_gt in El'; lia].
        -- destruct (Nat.leb (call_kind ev) c); lia.
Qed.

(** A handler that makes no call adds nothing to the calls of the body. *)
Lemma try_except_silent {A : Type} (i j : nat) (body : M A) (h : exn -> M A) :
  follows i j body ->
  (forall e w s, snd (h e w s) = s) ->
  forall w s, exists evs k,
    events_after s (snd (try_except body h w s)) evs /\ protocol i evs = Some k.
Proof.
  intros Hb Hh w s. destruct (Hb w s) as (evs & k & Hev & Hp & _).
  exists evs, k. split; [| exact Hp].
  unfold try_except. destruct (body w s) as [[a | e |] s1]; cbn [fst snd] in *;
    try exact Hev.
  destruct (exn_is_exception e); [rewrite Hh |]; exact Hev.
Qed.

Lemma generate_image_follows fuel self image_url style user_id aspect_ratio resolution :
  forall w s, exists evs k,
    events_after s
      (snd (generate_image fuel self image_url style user_id aspect_ratio resolution w s))
      evs /\
    protocol 0 evs = Some k.
Proof.
  unfold generate_image. apply (try_except_silent 0 8).
  - cbv zeta. follow_calls.
  - reflexivity.
Qed.

(** X1. Whatever the outcome of a call of [generate_image] (a result, a
    failure result, or a job that is still polled), its calls to the outside
    come in one fixed order: metadata GET, [files.get], MIME check, PIL open,
    convert, save, upload POST, job submission, then sleep and poll in turns,
    stopping anywhere; each of the first eight is made at most once, so a call
    never submits a second job or uploads twice; the process environment is
    left as it was. *)
Theorem generate_image_calls_in_order fuel self image_url style user_id aspect_ratio
    resolution w s :
  exists evs k,
    events_after s
      (snd (generate_image fuel self image_url style user_id aspect_ratio resolution w s))
      evs /\
    protocol 0 evs = Some k /\
    forall c, (c <= 7)%nat -> (count_kind c evs <= 1)%nat.
Proof.
  destruct (generate_image_follows fuel self image_url style user_id aspect_ratio
              resolution w s) as (evs & k & Hev & Hp).
  exists evs, k. split; [exact Hev |]. split; [exact Hp |].
  intros c Hc. pose proof (protocol_once c evs 0 k Hp Hc) as H.
  destruct (Nat.leb 0 c); lia.
Qed.

(** ** Runs whose answers are known *)

Lemma bind_run {A B : Type} (m : M A) (k : A -> M B) w s a s1 :
  m w s = (Returns a, s1) -> bind m k w s = k a w s1.
Proof. unfold bind. intros ->. reflexivity. Qed.

Lemma bind_run_Raises {A B : Type} (m : M A) (k : A -> M B) w s e s1 :
  m w s = (Raises e, s1) -> bind m k w s = (Raises e, s1).
Proof. unfold bind. intros ->. reflexivity. Qed.

Lemma try_except_run_Raises {A : Type} (body : M A) (h : exn -> M A) w s e s1 :
  body w s = (Raises e, s1) -> exn_is_exception e = true ->
  try_except body h w s = h e w s1.
Proof. unfold try_except. intros -> ->. reflexivity. Qed.

(** A step of the body that returns leaves the handler in place. *)
Lemma try_except_bind_run {A B : Type} (m : M A) (k : A -> M B) (h : exn -> M B)
    w s a s1 :
  m w s = (Returns a, s1) ->
  try_except (bind m k) h w s = try_except (k a) h w s1.
Proof. unfold try_except, bind. intros ->. reflexivity. Qed.

Lemma lift_run {A : Type} (r : result A) (a : A) w s :
  r = Ok a -> lift r w s = (Returns a, s).
Proof. intros ->. reflexivity. Qed.

Lemma dict_getitem_run {V : Type} (d : dict V) (k : string) (v : V) :
  dict_get d k = Some v -> dict_getitem d k = Ok v.
Proof. unfold dict_getitem. intros ->. reflexivity. Qed.

Lemma after_calls_log s e : log_event e s = after_calls s [ e ].
Proof. reflexivity. Qed.

Lemma after_calls_app s e1 e2 :
  after_calls (after_calls s e1) e2 = after_calls s (e1 ++ e2).
Proof. unfold after_calls. cbn. now rewrite app_assoc. Qed.

Lemma download_image_run w s api_key url client response file_id content file_type :
  session_get w url (download_headers api_key) = Ok response ->
  metadata_resolved response file_id ->
  files_get client file_id = Ok (FileBytes content) ->
  magic_from_buffer w content = Ok file_type ->
  startswith file_type "image/" = true ->
  download_image api_key url client w s =
    (Returns content,
     after_calls s [ EvGet url (download_headers api_key); EvFilesGet file_id;
                     EvMagic content ]).
Proof.
  intros Hget [Hst [Hct [items [Hjson Hid]]]] Hfile Hmagic Himg.
  assert (Hmem : dict_mem "id" items = true) by (apply dict_mem_true; eauto).
  unfold download_image. rewrite try_except_reraise. cbv zeta.
  unfold bind, call. rewrite Hget. run_step.
  rewrite Hst. cbn [Z.eqb Pos.eqb]. rewrite Hct. run_step.
  rewrite Hjson. cbn [py_in]. run_step. rewrite Hmem. cbn [py_getitem]. run_step.
  rewrite Hid. run_step. rewrite Hfile. run_step.
  rewrite Hmagic. run_step. rewrite Himg. run_step.
  rewrite !after_calls_log, !after_calls_app. reflexivity.
Qed.

Lemma wait_for_completion_run self w : forall fetched fuel n p s,
  poll_chain (client self) n p fetched ->
  str_in (pred_status (last fetched p)) terminal_statuses = true ->
  (length fetched <= fuel)%nat ->
  wait_for_completion fuel self n p w s =
    (Returns (last fetched p), after_calls s (poll_events p fetched)).
Proof.
  induction fetched as [| q rest IH]; intros fuel n p s Hchain Hdone Hlen.
  - cbn in *. rewrite (wait_for_completion_terminal _ _ _ _ _ _ Hdone).
    unfold after_calls. rewrite app_nil_r. now destruct s.
  - destruct fuel as [| fuel]; [cbn in Hlen; lia |].
    destruct Hchain as [Hopen [Hget Hchain]].
    rewrite (wait_for_completion_continues _ _ _ _ Hopen).
    unfold asyncio_sleep.
    rewrite (bind_run _ _ _ _ _ _ (call_Ok (EvSleep 2) (fun _ => Ok tt) w s tt eq_refl)).
    rewrite (bind_run _ _ _ _ _ _
               (call_Ok (EvPredGet (pred_id p))
                  (fun _ => predictions_get (client self) n (pred_id p)) w _ q Hget)).
    rewrite last_cons_default in *.
    rewrite (IH fuel (S n) q _ Hchain Hdone) by (cbn in Hlen; lia).
    rewrite !after_calls_log, !after_calls_app. reflexivity.
Qed.

(** X2. The polling loop stops at the first terminal status: when the
    predictions fetched one after the other are [fetched], each asked for by
    the id of the one before at a status that is not terminal, and the last
    of them is terminal, then under any bound of at least that many
    iterations the loop returns that last prediction after exactly one
    two-second sleep and one fetch per element of [fetched], and nothing else. *)
Theorem polling_stops_at_first_terminal_status self w fetched fuel n p s :
  poll_chain (client self) n p fetched ->
  str_in (pred_status (last fetched p)) terminal_statuses = true ->
  (length fetched <= fuel)%nat ->
  wait_for_completion fuel self n p w s =
    (Returns (last fetched p), after_calls s (poll_events p fetched)) /\
  length (poll_events p fetched) = (2 * length fetched)%nat.
Proof.
  intros Hchain Hdone Hlen. split; [now apply wait_for_completion_run |].
  clear. revert p. induction fetched as [| q rest IH]; intros p; cbn; [reflexivity |].
  rewrite IH. lia.
Qed.

(** X2 on a job that succeeds at the third poll. *)
Lemma polling_stops_witness :
  wait_for_completion 5 (sample_generator sample_world) 0 (sample_prediction "starting")
    sample_world sample_state =
    (Returns (sample_prediction "succeeded"),
     after_calls sample_state
       [ EvSleep 2; EvPredGet "p1"; EvSleep 2; EvPredGet "p1"; EvSleep 2; EvPredGet "p1" ]) /\
  length [ EvSleep 2; EvPredGet "p1"; EvSleep 2; EvPredGet "p1"; EvSleep 2; EvPredGet "p1" ]
    = 6%nat.
Proof.
  apply (polling_stops_at_first_terminal_status (sample_generator sample_world) sample_world
           [ sample_prediction "processing"; sample_prediction "processing";
             sample_prediction "succeeded" ]
           5 0 (sample_prediction "starting") sample_state).
  - cbn. repeat split; reflexivity.
  - reflexivity.
  - cbn. lia.
Defined.

Lemma valid_arguments_true self style aspect_ratio resolution :
  valid_arguments self style aspect_ratio resolution = true <->
  dict_mem style (styles self) = true /\
  dict_mem (normalized_ratio self aspect_ratio) (aspect_ratios self) = true /\
  dict_mem resolution (resolutions self) = true.
Proof.
  unfold valid_arguments. rewrite !andb_true_iff. tauto.
Qed.

(** What the call returns once the job has been submitted and the polling
    loop has come back with [final]. *)
Lemma generate_image_run fuel self image_url style user_id aspect_ratio resolution w s
    style_config created s1 final s2 :
  job_submitted self image_url style aspect_ratio resolution w s style_config created s1 ->
  wait_for_completion fuel self 0 created w s1 = (Returns final, s2) ->
  generate_image fuel self image_url style user_id aspect_ratio resolution w s =
    (Returns
       (if String.eqb (pred_status final) "succeeded" then
          match dict_get style_config "name" with
          | Some style_name => success_dict final style style_name (now_isoformat w)
          | None => failure_dict (exn_str (KeyError "name")) style (now_isoformat w)
          end
        else failure_dict (job_error_message final) style (now_isoformat w)),
     s2).
Proof.
  intros (response & file_id & image_bytes & file_type & img & rgb & processed & token
          & processed_url & prompt_template & model & Hvalid & Hcfg & Hget & Hmeta & Hfile
          & Hmagic & Himg & Hopen & Hconv & Hsave & Htok & Hup & Hprompt & Hmodel
          & Hcreate & ->) Hwait.
  apply valid_arguments_true in Hvalid. destruct Hvalid as [Hstyle [Hratio Hres]].
  pose proof (download_image_run w s (api_key self) image_url (client self) response
                file_id image_bytes file_type Hget Hmeta Hfile Hmagic Himg) as Hdl.
  destruct (upload_image_accepted w
              (after_calls s [ EvGet image_url (download_headers (api_key self));
                               EvFilesGet file_id; EvMagic image_bytes;
                               EvImageOpen image_bytes; EvImageConvert img "RGB";
                               EvImageSave rgb "JPEG" 95 ])
              processed "processed.jpg" processed_url) as [token' [Htok' Hupload]].
  { destruct Hup as (t & r & items & H1 & H2 & H3 & H4 & H5).
    exists t, r, items. auto. }
  cbn [after_calls environ] in Htok'. rewrite Htok in Htok'.
  inversion Htok'; subst token'; clear Htok'.
  unfold generate_image. cbv zeta. rewrite !normalize_if.
  rewrite Hstyle, Hratio, Hres. cbv beta iota delta [negb].
  rewrite (try_except_bind_run _ _ _ _ _ _ _
             (lift_run _ _ w s (dict_getitem_run _ _ _ Hcfg))).
  rewrite (try_except_bind_run _ _ _ _ _ _ _ Hdl).
  rewrite (try_except_bind_run _ _ _ _ _ _ _
             (try_except_Returns _ _ _ _ _ _
                (call_Ok (EvImageOpen image_bytes) (fun w0 => image_open w0 image_bytes)
                   w _ img Hopen))).
  rewrite (try_except_bind_run _ _ _ _ _ _ _
             (call_Ok (EvImageConvert img "RGB") (fun w0 => image_convert w0 img "RGB")
                w _ rgb Hconv)).
  rewrite (try_except_bind_run _ _ _ _ _ _ _
             (call_Ok (EvImageSave rgb "JPEG" 95) (fun w0 => image_save w0 rgb "JPEG" 95)
                w _ processed Hsave)).
  rewrite !after_calls_log, !after_calls_app. cbn [app].
  rewrite (try_except_bind_run _ _ _ _ _ _ _ Hupload).
  rewrite (try_except_bind_run _ _ _ _ _ _ _
             (lift_run _ _ w _ (dict_getitem_run _ _ _ Hprompt))).
  rewrite (try_except_bind_run _ _ _ _ _ _ _
             (lift_run _ _ w _ (dict_getitem_run _ _ _ Hmodel))).
  rewrite (try_except_bind_run _ _ _ _ _ _ _
             (call_Ok (EvCreate model
                         (job_input prompt_template (normalized_ratio self aspect_ratio)
                            processed_url resolution))
                (fun _ => predictions_create (client self) model
                            (job_input prompt_template (normalized_ratio self aspect_ratio)
                               processed_url resolution))
                w _ created Hcreate)).
  rewrite !after_calls_log, !after_calls_app. cbn [app].
  unfold job_calls in Hwait.
  rewrite (try_except_bind_run _ _ _ _ _ _ _ Hwait).
  destruct (String.eqb (pred_status final) "succeeded").
  - unfold try_except, bind, dict_getitem.
    destruct (dict_get style_config "name"); reflexivity.
  - reflexivity.
Qed.

(** X3. When every step up to the submission answers well, the job reaches
    the status [succeeded] within the allowed polls and the style has a
    [name], [generate_image] returns the success dictionary: [result_url] is
    the output of the last prediction fetched (its [str()] when it is not a
    string), with the style key, the style's name, the timestamp and that
    prediction's id; the calls made are those up to the submission followed by
    one sleep and one fetch per poll. *)
Theorem generate_image_succeeds fuel self image_url style user_id aspect_ratio resolution
    w s style_config created s1 fetched style_name :
  job_submitted self image_url style aspect_ratio resolution w s style_config created s1 ->
  poll_chain (client self) 0 created fetched ->
  (length fetched <= fuel)%nat ->
  pred_status (last fetched created) = "succeeded" ->
  dict_get style_config "name" = Some style_name ->
  generate_image fuel self image_url style user_id aspect_ratio resolution w s =
    (Returns (success_dict (last fetched created) style style_name (now_isoformat w)),
     after_calls s1 (poll_events created fetched)).
Proof.
  intros Hjob Hchain Hlen Hsucc Hname.
  assert (Hdone : str_in (pred_status (last fetched created)) terminal_statuses = true)
    by (apply str_in_terminal; auto).
  rewrite (generate_image_run fuel self image_url style user_id aspect_ratio resolution
             w s style_config created s1 _ _ Hjob
             (wait_for_completion_run self w fetched fuel 0 created s1 Hchain Hdone Hlen)).
  rewrite Hsucc, Hname. reflexivity.
Qed.

(** X4. When every step up to the submission answers well and the job ends
    at [failed] or [canceled] within the allowed polls, [generate_image]
    returns a failure dictionary whose error names the final status, followed
    by the prediction's error text when it has a non-empty one. *)
Theorem generate_image_reports_job_failure fuel self image_url style user_id aspect_ratio
    resolution w s style_config created s1 fetched :
  job_submitted self image_url style aspect_ratio resolution w s style_config created s1 ->
  poll_chain (client self) 0 created fetched ->
  (length fetched <= fuel)%nat ->
  pred_status (last fetched created) = "failed" \/
  pred_status (last fetched created) = "canceled" ->
  generate_image fuel self image_url style user_id aspect_ratio resolution w s =
    (Returns (failure_dict (job_error_message (last fetched created)) style
                (now_isoformat w)),
     after_calls s1 (poll_events created fetched)).
Proof.
  intros Hjob Hchain Hlen Hend.
  assert (Hdone : str_in (pred_status (last fetched created)) terminal_statuses = true)
    by (apply str_in_terminal; tauto).
  rewrite (generate_image_run fuel self image_url style user_id aspect_ratio resolution
             w s style_config created s1 _ _ Hjob
             (wait_for_completion_run self w fetched fuel 0 created s1 Hchain Hdone Hlen)).
  destruct Hend as [-> | ->]; reflexivity.
Qed.

Lemma sample_job_submitted (c : Client) :
  predictions_create c "runwayml/gen4-image" sample_input = Ok (sample_prediction "starting") ->
  files_get c (JStr "f1") = Ok (FileBytes png_bytes) ->
  job_submitted (sample_generator (sample_world_with c)) sample_url "lego" "3:4" "720p"
    (sample_world_with c) sample_state lego_config (sample_prediction "starting")
    (sample_job_state (sample_world_with c)).
Proof.
  intros Hcreate Hfile.
  exists metadata_response, (JStr "f1"), png_bytes, "image/png", sample_image, sample_rgb,
    jpeg_bytes, "r8_key", sample_uploaded_url, lego_prompt, "runwayml/gen4-image".
  repeat (split; [first [reflexivity | assumption] |]).
  split.
  { split; [reflexivity |]. split; [reflexivity |].
    exists [ ("id", JStr "f1") ]. split; reflexivity. }
  repeat (split; [first [reflexivity | assumption] |]).
  split.
  { exists "r8_key", created_response,
      [ ("id", JStr "f2"); ("url", JStr "https://api.replicate.com/v1/files/f2") ].
    repeat split; reflexivity. }
  repeat (split; [first [reflexivity | assumption] |]).
  reflexivity.
Qed.

(** X3 at the sample world: the job succeeds at the third poll. *)
Lemma generate_image_succeeds_witness :
  generate_image 3 (sample_generator sample_world) sample_url "lego" 42 "3:4" "720p"
    sample_world sample_state =
    (Returns (success_dict (sample_prediction "succeeded") "lego" "🧱 LEGO"
                (now_isoformat sample_world)),
     after_calls (sample_job_state sample_world)
       [ EvSleep 2; EvPredGet "p1"; EvSleep 2; EvPredGet "p1"; EvSleep 2; EvPredGet "p1" ]).
Proof.
  apply (generate_image_succeeds 3 (sample_generator sample_world) sample_url "lego" 42
           "3:4" "720p" sample_world sample_state lego_config (sample_prediction "starting")
           (sample_job_state sample_world)
           [ sample_prediction "processing"; sample_prediction "processing";
             sample_prediction "succeeded" ]).
  - apply sample_job_submitted; reflexivity.
  - cbn. repeat split; reflexivity.
  - cbn. lia.
  - reflexivity.
  - reflexivity.
Defined.

(** X4 at a world whose job fails at the first poll with an error text. *)
Lemma generate_image_reports_job_failure_witness :
  generate_image 3 (sample_generator failing_world) sample_url "lego" 42 "3:4" "720p"
    failing_world sample_state =
    (Returns (failure_dict
                "Генерация завершилась со статусом: failed - NSFW content detected"
                "lego" (now_isoformat failing_world)),
     after_calls (sample_job_state failing_world) [ EvSleep 2; EvPredGet "p1" ]).
Proof.
  apply (generate_image_reports_job_failure 3 (sample_generator failing_world) sample_url
           "lego" 42 "3:4" "720p" failing_world sample_state lego_config
           (sample_prediction "starting") (sample_job_state failing_world)
           [ failed_prediction ]).
  - apply sample_job_submitted; reflexivity.
  - cbn. repeat split; reflexivity.
  - cbn. lia.
  - left. reflexivity.
Defined.

(** ** The gate of the arguments *)

Lemma follows_appends {A : Type} (i j : nat) (m : M A) w s :
  follows i j m -> exists evs, events_after s (snd (m w s)) evs.
Proof.
  intros H. destruct (H w s) as (evs & k & Hev & _). now exists evs.
Qed.

(** Code that starts with a call has it first among its calls. *)
Lemma bind_call_first {A B : Type} (e : event) (ask : World -> result A) (k : A -> M B)
    (i j : nat) :
  (forall a, follows i j (k a)) ->
  forall w s, exists rest, events_after s (snd (bind (call e ask) k w s)) (e :: rest).
Proof.
  intros Hk w s. unfold bind, call.
  destruct (ask w) as [a | x]; cbn [lift ret raise].
  - destruct (follows_appends i j (k a) w (log_event e s) (Hk a)) as [rest Hrest].
    exists rest. apply (events_after_trans _ _ _ [ e ] rest (events_after_log s e) Hrest).
  - exists []. apply events_after_log.
Qed.

(** The same under a handler that makes no call. *)
Lemma try_except_bind_first {A B : Type} (m : M A) (k : A -> M B) (h : exn -> M B)
    (e : event) (i j : nat) :
  (forall w s, exists rest, events_after s (snd (m w s)) (e :: rest)) ->
  (forall a, follows i j (k a)) ->
  (forall x w s, snd (h x w s) = s) ->
  forall w s, exists rest,
    events_after s (snd (try_except (bind m k) h w s)) (e :: rest).
Proof.
  intros Hm Hk Hh w s. destruct (Hm w s) as [rest1 H1].
  unfold try_except, bind. destruct (m w s) as [[a | x |] s1]; cbn [fst snd] in *.
  - destruct (follows_appends i j (k a) w s1 (Hk a)) as [rest2 H2].
    exists (rest1 ++ rest2)%list.
    destruct (k a w s1) as [[b | x |] s2]; try destruct (exn_is_exception x);
      cbn [fst snd] in *; try rewrite Hh;
      apply (events_after_trans _ _ _ _ _ H1 H2).
  - exists rest1. destruct (exn_is_exception x); [now rewrite Hh | exact H1].
  - exists rest1. exact H1.
Qed.

Lemma download_image_first_call api_key url client w s :
  exists rest,
    events_after s (snd (download_image api_key url client w s))
      (EvGet url (download_headers api_key) :: rest).
Proof.
  unfold download_image. rewrite try_except_reraise. cbv zeta.
  apply (bind_call_first _ _ _ 1 3). intros response. follow.
Qed.

(** With valid arguments the first call is the metadata request. *)
Lemma generate_image_first_call fuel self image_url style user_id aspect_ratio resolution
    w s :
  valid_arguments self style aspect_ratio resolution = true ->
  exists rest,
    events_after s
      (snd (generate_image fuel self image_url style user_id aspect_ratio resolution w s))
      (EvGet image_url (download_headers (api_key self)) :: rest).
Proof.
  intros Hvalid. apply valid_arguments_true in Hvalid.
  destruct Hvalid as [Hstyle [Hratio Hres]].
  destruct (proj1 (dict_mem_true _ _) Hstyle) as [style_config Hcfg].
  unfold generate_image. cbv zeta. rewrite !normalize_if.
  rewrite Hstyle, Hratio, Hres. cbv beta iota delta [negb].
  rewrite (try_except_bind_run _ _ _ _ _ _ _
             (lift_run _ _ w s (dict_getitem_run _ _ _ Hcfg))).
  apply (try_except_bind_first _ _ _ _ 3 8).
  - intros w0 s0. apply download_image_first_call.
  - intros image_bytes. follow_calls.
  - reflexivity.
Qed.

(** X5. [generate_image] checks the style first, then the normalized aspect
    ratio, then the resolution; the first check that fails decides the error
    text (the unknown style, the aspect ratio as normalized, or the
    resolution) and the failure result comes without any call to the outside;
    when all three pass, the call does go out, and its first call is the
    metadata request for [image_url], authorized with the generator's key. *)
Theorem generate_image_gate fuel self image_url style user_id aspect_ratio
    resolution w s :
  (dict_mem style (styles self) = false ->
   generate_image fuel self image_url style user_id aspect_ratio resolution w s =
     (Returns (failure_dict ("Неизвестный стиль: " ++ style) style (now_isoformat w)), s)) /\
  (dict_mem style (styles self) = true ->
   dict_mem (normalized_ratio self aspect_ratio) (aspect_ratios self) = false ->
   generate_image fuel self image_url style user_id aspect_ratio resolution w s =
     (Returns (failure_dict
                 ("Неподдерживаемое соотношение сторон: "
                    ++ normalized_ratio self aspect_ratio)
                 style (now_isoformat w)), s)) /\
  (dict_mem style (styles self) = true ->
   dict_mem (normalized_ratio self aspect_ratio) (aspect_ratios self) = true ->
   dict_mem resolution (resolutions self) = false ->
   generate_image fuel self image_url style user_id aspect_ratio resolution w s =
     (Returns (failure_dict ("Неподдерживаемое разрешение: " ++ resolution)
                 style (now_isoformat w)), s)) /\
  (dict_mem style (styles self) = true ->
   dict_mem (normalized_ratio self aspect_ratio) (aspect_ratios self) = true ->
   dict_mem resolution (resolutions self) = true ->
   exists rest,
     events_after s
       (snd (generate_image fuel self image_url style user_id aspect_ratio resolution w s))
       (EvGet image_url [ ("Authorization", "Token " ++ api_key self);
                          ("Accept", "application/json") ] :: rest)).
Proof.
  split; [| split; [| split]].
  4:{ intros H1 H2 H3. apply generate_image_first_call.
      apply valid_arguments_true. auto. }
  all: unfold generate_image; cbv zeta; rewrite !normalize_if.
  - intros ->. reflexivity.
  - intros -> ->. reflexivity.
  - intros -> -> ->. reflexivity.
Qed.

(** X5 at the sample generator: an unknown style, an unsupported ratio, an
    unsupported resolution, and valid arguments. *)
Lemma generate_image_gate_witness :
  generate_image 3 (sample_generator sample_world) sample_url "anime" 42 "3:4" "720p"
    sample_world sample_state =
    (Returns (failure_dict "Неизвестный стиль: anime" "anime" (now_isoformat sample_world)),
     sample_state) /\
  generate_image 3 (sample_generator sample_world) sample_url "lego" 42 "21:9" "720p"
    sample_world sample_state =
    (Returns (failure_dict "Неподдерживаемое соотношение сторон: 21:9" "lego"
                (now_isoformat sample_world)), sample_state) /\
  generate_image 3 (sample_generator sample_world) sample_url "lego" 42 "16" "4k"
    sample_world sample_state =
    (Returns (failure_dict "Неподдерживаемое разрешение: 4k" "lego"
                (now_isoformat sample_world)), sample_state) /\
  exists rest,
    events_after sample_state
      (snd (generate_image 3 (sample_generator sample_world) sample_url "lego" 42 "16" "720p"
              sample_world sample_state))
      (EvGet sample_url [ ("Authorization", "Token r8_key"); ("Accept", "application/json") ]
         :: rest).
Proof.
  split; [| split; [| split]].
  - apply (proj1 (generate_image_gate 3 (sample_generator sample_world)
                    sample_url "anime" 42 "3:4" "720p" sample_world sample_state)).
    reflexivity.
  - apply (proj1 (proj2 (generate_image_gate 3 (sample_generator sample_world)
                           sample_url "lego" 42 "21:9" "720p" sample_world sample_state)));
      reflexivity.
  - apply (proj1 (proj2 (proj2 (generate_image_gate 3 (sample_generator sample_world)
                           sample_url "lego" 42 "16" "4k" sample_world sample_state))));
      reflexivity.
  - apply (proj2 (proj2 (proj2 (generate_image_gate 3 (sample_generator sample_world)
                           sample_url "lego" 42 "16" "720p" sample_world sample_state))));
      reflexivity.
Defined.

Lemma In_keys_mem {V : Type} (k : string) (d : dict V) :
  In k (dict_keys d) -> dict_mem k d = true.
Proof.
  unfold dict_mem, dict_keys.
  induction d as [| [k' v] d IH]; cbn; [tauto |].
  intros [-> | H].
  - now rewrite String.eqb_refl.
  - destruct (String.eqb k k'); [reflexivity | now apply IH].
Qed.

(** X6. With the tables of [__init__], every configured aspect ratio is left
    as it is by the normalization, and a call with a configured style, a
    configured aspect ratio and a configured resolution (the options that the
    three keyboards offer) passes the checks: it goes on to request the image. *)
Theorem configured_options_are_accepted fuel self image_url style user_id aspect_ratio
    resolution w s :
  aspect_ratio_map self = init_aspect_ratio_map ->
  aspect_ratios self = init_aspect_ratios ->
  In style (dict_keys (styles self)) ->
  In aspect_ratio (dict_keys (aspect_ratios self)) ->
  In resolution (dict_keys (resolutions self)) ->
  normalized_ratio self aspect_ratio = aspect_ratio /\
  exists rest,
    events_after s
      (snd (generate_image fuel self image_url style user_id aspect_ratio resolution w s))
      (EvGet image_url (download_headers (api_key self)) :: rest).
Proof.
  intros Hmap Hratios Hstyle Hratio Hres.
  assert (Hnorm : normalized_ratio self aspect_ratio = aspect_ratio).
  { unfold normalized_ratio. rewrite Hmap. rewrite Hratios in Hratio. cbn in Hratio.
    destruct Hratio as [<- | [<- | [<- | [<- | [<- | []]]]]]; reflexivity. }
  split; [exact Hnorm |].
  apply generate_image_first_call. apply valid_arguments_true.
  rewrite Hnorm. repeat split; now apply In_keys_mem.
Qed.

(** X6 at the sample generator, for the last ratio of the keyboard. *)
Lemma configured_options_witness :
  normalized_ratio (sample_generator sample_world) "16:9" = "16:9" /\
  exists rest,
    events_after sample_state
      (snd (generate_image 3 (sample_generator sample_world) sample_url "cinema" 42 "16:9"
              "720p" sample_world sample_state))
      (EvGet sample_url (download_headers "r8_key") :: rest).
Proof.
  apply (configured_options_are_accepted 3 (sample_generator sample_world) sample_url
           "cinema" 42 "16:9" "720p" sample_world sample_state eq_refl eq_refl).
  - cbn. tauto.
  - cbn. tauto.
  - cbn. tauto.
Defined.

(** ** The upload and the key it is authorized with *)

(** X7. [upload_image_to_replicate] reads its token from the process
    environment: without [REPLICATE_API_TOKEN] it raises [KeyError] and sends
    nothing; with it, it makes exactly one request, whatever the answer, the
    POST of the bytes to the files endpoint with the headers [Authorization:
    Token <token>], [Content-Type: application/octet-stream] and
    [X-File-Name: <filename>]; an answer with another status than 201 is
    raised as an exception that quotes the status and the body text. *)
Theorem upload_makes_one_request w s image_bytes filename :
  (dict_get (environ s) "REPLICATE_API_TOKEN" = None ->
   upload_image_to_replicate image_bytes filename w s =
     (Raises (KeyError "REPLICATE_API_TOKEN"), s)) /\
  (forall token,
     dict_get (environ s) "REPLICATE_API_TOKEN" = Some token ->
     exists o,
       o <> OutOfFuel /\
       upload_image_to_replicate image_bytes filename w s =
         (o, log_event
               (EvPost "https://api.replicate.com/v1/files"
                  [ ("Authorization", "Token " ++ token);
                    ("Content-Type", "application/octet-stream");
                    ("X-File-Name", filename) ]
                  image_bytes) s)) /\
  (forall token response body,
     dict_get (environ s) "REPLICATE_API_TOKEN" = Some token ->
     session_post w files_endpoint (upload_headers token filename) image_bytes = Ok response ->
     status response <> 201 ->
     text response = Ok body ->
     fst (upload_image_to_replicate image_bytes filename w s) =
       Raises (Exception ("Ошибка загрузки на Replicate: HTTP "
                            ++ str_of_int (status response) ++ " - " ++ body))).
Proof.
  unfold upload_image_to_replicate. rewrite try_except_reraise. cbv zeta.
  unfold bind, environ_getitem, call. split; [| split].
  - intros ->. reflexivity.
  - intros token ->.
    change files_endpoint with "https://api.replicate.com/v1/files".
    unfold upload_headers.
    destruct (session_post w _ _ image_bytes) as [response | e]; run_step;
      [| eexists; split; [| reflexivity]; discriminate].
    destruct (status response =? 201).
    + destruct (body_json response) as [data | e]; run_step;
        [| eexists; split; [| reflexivity]; discriminate].
      destruct (py_in "url" data) as [[|] | e]; run_step;
        try (eexists; split; [| reflexivity]; discriminate).
      destruct (py_getitem data "url"); run_step;
        eexists; (split; [| reflexivity]); discriminate.
    + destruct (text response); run_step;
        eexists; (split; [| reflexivity]); discriminate.
  - intros token response body -> Hpost Hst Htext. rewrite Hpost. run_step.
    destruct (Z.eqb_spec (status response) 201) as [E | _]; [contradiction |].
    rewrite Htext. reflexivity.
Qed.

(** X7 on an empty environment and on an upload answered with status 401. *)
Lemma upload_makes_one_request_witness :
  upload_image_to_replicate jpeg_bytes "processed.jpg" sample_world
    {| environ := []; trace := [] |} =
    (Raises (KeyError "REPLICATE_API_TOKEN"), {| environ := []; trace := [] |}) /\
  fst (upload_image_to_replicate jpeg_bytes "processed.jpg" unauthorized_world sample_state) =
    Raises (Exception "Ошибка загрузки на Replicate: HTTP 401 - Unauthenticated").
Proof.
  split.
  - apply (proj1 (upload_makes_one_request sample_world {| environ := []; trace := [] |}
                    jpeg_bytes "processed.jpg")).
    reflexivity.
  - apply (proj2 (proj2 (upload_makes_one_request unauthorized_world sample_state
                           jpeg_bytes "processed.jpg"))
             "r8_key" unauthorized_response "Unauthenticated").
    + reflexivity.
    + reflexivity.
    + cbn. lia.
    + reflexivity.
Defined.

Lemma dict_get_set_other {V : Type} (d : dict V) (k k' : string) (v : V) :
  k' <> k -> dict_get (dict_set d k v) k' = dict_get d k'.
Proof.
  intros Hneq. induction d as [| [k0 v0] d IH]; cbn.
  - destruct (String.eqb_spec k' k); [contradiction | reflexivity].
  - destruct (String.eqb_spec k k0) as [-> | Hk]; cbn.
    + destruct (String.eqb_spec k' k0); [contradiction | reflexivity].
    + destruct (String.eqb k' k0); [reflexivity | exact IH].
Qed.

(** X9. The upload in [generate_image] is authorized with the key of the
    generator constructed last, not with the key of the generator that runs:
    when a second generator has been constructed with another key, a
    successful run of the first one requests the image with its own key and
    uploads the re-encoded image with the second generator's key. *)
Theorem upload_uses_latest_key fuel k1 k2 w s0 g1 s1 g2 s2 image_url style user_id
    aspect_ratio resolution d s' :
  init k1 w s0 = (Returns g1, s1) ->
  init k2 w s1 = (Returns g2, s2) ->
  generate_image fuel g1 image_url style user_id aspect_ratio resolution w s2
    = (Returns d, s') ->
  dict_get d "success" = Some (VBool true) ->
  exists evs data,
    events_after s2 s' evs /\
    In (EvGet image_url (download_headers k1)) evs /\
    In (EvPost files_endpoint (upload_headers k2 "processed.jpg") data) evs.
Proof.
  intros H1 H2 Hrun Hsucc.
  apply init_Returns in H1. destruct H1 as [_ [-> ->]].
  apply init_Returns in H2. destruct H2 as [_ [-> ->]].
  apply generate_image_Returns in Hrun.
  destruct Hrun as [[style_config [final [style_name [Hsteps _]]]] | [err ->]];
    [| discriminate Hsucc].
  destruct Hsteps as (response & file_id & image_bytes & file_type & img & rgb & processed
                      & token & processed_url & prompt_template & model & created & fetched
                      & Hrest).
  repeat match type of Hrest with
         | dict_get (environ _) _ = Some _ /\ _ => fail 1
         | _ /\ _ => destruct Hrest as [_ Hrest]
         end.
  destruct Hrest as [Htok Hrest].
  cbn [environ] in Htok. rewrite dict_get_set in Htok. inversion Htok; subst token.
  repeat match type of Hrest with _ /\ _ => destruct Hrest as [_ Hrest] end.
  eexists. exists processed. split; [exact Hrest |].
  cbn [api_key]. split; cbn; auto 10.
Qed.

(** X9 at the sample world, for the keys [first_key] and [second_key]. *)
Lemma upload_uses_latest_key_witness :
  exists evs data,
    events_after
      {| environ := [ ("REPLICATE_API_TOKEN", "second_key") ]; trace := [] |}
      (snd (generate_image 3
              {| api_key := "first_key"; styles := init_styles;
                 aspect_ratios := init_aspect_ratios;
                 aspect_ratio_map := init_aspect_ratio_map;
                 resolutions := init_resolutions;
                 client := replicate_Client sample_world "first_key" |}
              sample_url "lego" 42 "3:4" "720p" sample_world
              {| environ := [ ("REPLICATE_API_TOKEN", "second_key") ]; trace := [] |}))
      evs /\
    In (EvGet sample_url (download_headers "first_key")) evs /\
    In (EvPost files_endpoint (upload_headers "second_key" "processed.jpg") data) evs.
Proof.
  eapply (upload_uses_latest_key 3 "first_key" "second_key" sample_world
            {| environ := []; trace := [] |})
    with (style := "lego") (user_id := 42) (aspect_ratio := "3:4") (resolution := "720p")
         (d := success_dict (sample_prediction "succeeded") "lego" "🧱 LEGO"
                 (now_isoformat sample_world)).
  - reflexivity.
  - reflexivity.
  - reflexivity.
  - reflexivity.
Defined.

(** ** Failures of the steps *)

Lemma try_except_bind_Raises {A B : Type} (m : M A) (k : A -> M B) (h : exn -> M B)
    w s e s1 :
  m w s = (Raises e, s1) -> exn_is_exception e = true ->
  try_except (bind m k) h w s = h e w s1.
Proof. unfold try_except, bind. intros -> ->. reflexivity. Qed.

(** X11. The exceptions of [download_image] say what went wrong: an answer
    with another status than 200 is quoted with its status and body text; a
    200 answer whose [Content-Type] does not start with [application/json] is
    quoted with that content type (empty when the header is missing); a JSON
    object without ['id'] is reported as such; content that is not [bytes] is
    reported with its type; bytes of another MIME type than [image/...] are
    reported with that type. *)
Theorem download_image_error_texts w s api_key url client response :
  session_get w url (download_headers api_key) = Ok response ->
  (forall body,
     status response <> 200 -> text response = Ok body ->
     fst (download_image api_key url client w s) =
       Raises (Exception ("Ошибка получения метаданных: HTTP "
                            ++ str_of_int (status response) ++ " - " ++ body))) /\
  (status response = 200 ->
   startswith (content_type_or_empty response) "application/json" = false ->
   fst (download_image api_key url client w s) =
     Raises (Exception ("Ожидался JSON в метаданных, получен Content-Type: "
                          ++ content_type_or_empty response))) /\
  (forall items,
     status response = 200 ->
     startswith (content_type_or_empty response) "application/json" = true ->
     body_json response = Ok (JObj items) -> dict_get items "id" = None ->
     fst (download_image api_key url client w s) =
       Raises (Exception "Метаданные не содержат id файла")) /\
  (forall file_id type_repr,
     metadata_resolved response file_id ->
     files_get client file_id = Ok (FileOther type_repr) ->
     fst (download_image api_key url client w s) =
       Raises (Exception ("replicate.Client.files.get вернул не бинарные данные: тип "
                            ++ type_repr))) /\
  (forall file_id content file_type,
     metadata_resolved response file_id ->
     files_get client file_id = Ok (FileBytes content) ->
     magic_from_buffer w content = Ok file_type ->
     startswith file_type "image/" = false ->
     fst (download_image api_key url client w s) =
       Raises (Exception ("Скачанные данные не являются изображением: MIME-тип "
                            ++ file_type))).
Proof.
  intros Hget.
  unfold download_image. rewrite try_except_reraise. cbv zeta.
  unfold bind, call. rewrite Hget. run_step.
  split; [| split; [| split; [| split]]].
  - intros body Hst Htext.
    destruct (Z.eqb_spec (status response) 200) as [E | _]; [contradiction |].
    rewrite Htext. reflexivity.
  - intros Hst Hct. rewrite Hst. cbn [Z.eqb Pos.eqb]. rewrite Hct. reflexivity.
  - intros items Hst Hct Hjson Hid. rewrite Hst. cbn [Z.eqb Pos.eqb]. rewrite Hct.
    run_step. rewrite Hjson. cbn [py_in]. run_step.
    apply dict_mem_false in Hid. rewrite Hid. reflexivity.
  - intros file_id type_repr [Hst [Hct [items [Hjson Hid]]]] Hfile.
    assert (Hmem : dict_mem "id" items = true) by (apply dict_mem_true; eauto).
    rewrite Hst. cbn [Z.eqb Pos.eqb]. rewrite Hct. run_step.
    rewrite Hjson. cbn [py_in]. run_step. rewrite Hmem. cbn [py_getitem]. run_step.
    rewrite Hid. run_step. rewrite Hfile. reflexivity.
  - intros file_id content file_type [Hst [Hct [items [Hjson Hid]]]] Hfile Hmagic Himg.
    assert (Hmem : dict_mem "id" items = true) by (apply dict_mem_true; eauto).
    rewrite Hst. cbn [Z.eqb Pos.eqb]. rewrite Hct. run_step.
    rewrite Hjson. cbn [py_in]. run_step. rewrite Hmem. cbn [py_getitem]. run_step.
    rewrite Hid. run_step. rewrite Hfile. run_step. rewrite Hmagic. run_step.
    rewrite Himg. reflexivity.
Qed.

(** X11 on a 404 answer and on a client that hands back a file object. *)
Lemma download_image_error_texts_witness :
  fst (download_image "r8_key" sample_url (sample_client 2 "succeeded")
         not_found_world sample_state) =
    Raises (Exception "Ошибка получения метаданных: HTTP 404 - Not found") /\
  fst (download_image "r8_key" sample_url file_object_client sample_world sample_state) =
    Raises (Exception
              "replicate.Client.files.get вернул не бинарные данные: тип <class 'replicate.file.File'>").
Proof.
  split.
  - apply (proj1 (download_image_error_texts not_found_world sample_state "r8_key"
                    sample_url (sample_client 2 "succeeded") not_found_response eq_refl)
             "Not found").
    + cbn. lia.
    + reflexivity.
  - apply (proj1 (proj2 (proj2 (proj2
             (download_image_error_texts sample_world sample_state "r8_key" sample_url
                file_object_client metadata_response eq_refl))))
             (JStr "f1") "<class 'replicate.file.File'>").
    + split; [reflexivity |]. split; [reflexivity |].
      exists [ ("id", JStr "f1") ]. split; reflexivity.
    + reflexivity.
Defined.

(** ** The layout of the keyboards *)

Lemma length_concat_uniform {A : Type} (width : nat) (rows : list (list A)) :
  Forall (fun r => length r = width) rows ->
  length (concat rows) = (width * length rows)%nat.
Proof.
  induction 1 as [| r rows Hr _ IH]; cbn; [lia |].
  rewrite length_app, IH, Hr. lia.
Qed.

(** Rows are filled one after the other: all are full but possibly the last. *)
Lemma finish_keyboard_layout (width : nat) (buttons : list Button) :
  (0 < width)%nat ->
  exists full tail,
    finish_keyboard (fst (fill_rows width buttons [] [])) (snd (fill_rows width buttons [] []))
      = (full ++ tail ++ [ [ cancel_button ] ])%list /\
    Forall (fun r => length r = width) full /\
    length full = (length buttons / width)%nat /\
    concat (full ++ tail) = buttons /\
    ((tail = [] /\ (length buttons mod width = 0)%nat) \/
     (exists row, tail = [ row ] /\ length row = (length buttons mod width)%nat /\
                  (0 < length row)%nat)).
Proof.
  intros Hw.
  destruct (fill_rows_spec width buttons [] []) as [rows [H1 [H2 [H3 H4]]]]; [cbn; lia |].
  cbn [app] in H1, H4. rewrite H1. unfold finish_keyboard.
  pose proof (length_concat_uniform width rows H2) as Hlen.
  assert (Hsum : length buttons
                 = (width * length rows
                    + length (snd (fill_rows width buttons [] [])))%nat).
  { pose proof (f_equal (@length Button) H4) as E.
    rewrite length_app, Hlen in E. lia. }
  destruct (snd (fill_rows width buttons [] [])) as [| b row] eqn:Hrow.
  - exists rows, []. cbn [app length] in *. split; [reflexivity |].
    split; [exact H2 |]. split.
    + apply (Nat.div_unique _ _ _ 0); lia.
    + split; [now rewrite app_nil_r in * |]. left. split; [reflexivity |].
      symmetry. apply (Nat.mod_unique _ _ (length rows) 0); lia.
  - exists rows, [ b :: row ]. split; [now rewrite <- app_assoc |].
    split; [exact H2 |]. split.
    + apply (Nat.div_unique _ _ _ (length (b :: row))); lia.
    + split; [rewrite concat_app; cbn; now rewrite app_nil_r |].
      right. exists (b :: row). split; [reflexivity |]. split; [| cbn; lia].
      apply (Nat.mod_unique _ _ (length rows) (length (b :: row))); lia.
Qed.

(** X12. The style keyboard has two buttons in every row and the
    aspect-ratio keyboard three, except for a last shorter row when the number
    of entries is not a multiple of the width: with [n] entries there are
    [n / width] full rows, then a row of [n mod width] buttons if that is not
    zero, then the cancel row.  The resolution keyboard puts all resolutions
    in one row, however many there are, and has no button row at all when no
    resolution is configured. *)
Theorem keyboard_rows_are_filled (self : PhotoTransformGenerator)
    (style_key aspect_ratio : string) (w : World) (s : State) :
  (forall kb s',
     get_style_keyboard self w s = (Returns kb, s') ->
     exists full tail,
       kb = (full ++ tail ++ [ [ cancel_button ] ])%list /\
       Forall (fun r => length r = 2%nat) full /\
       length full = (length (styles self) / 2)%nat /\
       ((tail = [] /\ (length (styles self) mod 2 = 0)%nat) \/
        (exists row, tail = [ row ] /\ length row = 1%nat /\
                     (length (styles self) mod 2 = 1)%nat))) /\
  (exists full tail,
     get_aspect_ratio_keyboard self style_key w s =
       (Returns (full ++ tail ++ [ [ cancel_button ] ])%list, s) /\
     Forall (fun r => length r = 3%nat) full /\
     length full = (length (aspect_ratios self) / 3)%nat /\
     ((tail = [] /\ (length (aspect_ratios self) mod 3 = 0)%nat) \/
      (exists row, tail = [ row ] /\
                   length row = (length (aspect_ratios self) mod 3)%nat /\
                   (0 < length row)%nat))) /\
  get_resolution_keyboard self style_key aspect_ratio w s =
    (Returns
       match dict_keys (resolutions self) with
       | [] => [ [ cancel_button ] ]
       | keys => [ map (resolution_button style_key aspect_ratio) keys; [ cancel_button ] ]
       end, s).
Proof.
  split; [| split].
  - intros kb s' H. unfold get_style_keyboard in H.
    bind_inv H kr s1 Hloop.
    apply style_keyboard_loop_Returns in Hloop. destruct Hloop as [buttons [HF ->]].
    inversion H; subst kb s'; clear H.
    destruct (finish_keyboard_layout 2 buttons) as (full & tail & H1 & H2 & H3 & _ & H5);
      [lia |].
    rewrite (Forall2_length HF) in *.
    exists full, tail. split; [exact H1 |]. split; [exact H2 |]. split; [exact H3 |].
    destruct H5 as [[-> Hm] | [row [-> [Hr Hpos]]]]; [left; auto | right].
    exists row. split; [reflexivity |].
    pose proof (Nat.mod_upper_bound (length buttons) 2). lia.
  - destruct (finish_keyboard_layout 3
                (map (ratio_button style_key) (dict_keys (aspect_ratios self))))
      as (full & tail & H1 & H2 & H3 & _ & H5); [lia |].
    unfold dict_keys in *. rewrite !length_map in *.
    exists full, tail. split; [| auto].
    unfold get_aspect_ratio_keyboard, bind, dict_keys.
    rewrite ratio_keyboard_loop_run. unfold ret. now rewrite H1.
  - unfold get_resolution_keyboard, bind. rewrite resolution_keyboard_loop_run.
    cbn [app]. unfold ret, finish_keyboard.
    destruct (dict_keys (resolutions self)); reflexivity.
Qed.

(** X12 on the style keyboard of a generator with three styles. *)
Lemma keyboard_rows_witness :
  exists full tail,
    [ [ style_button "A" "a"; style_button "B" "b" ]; [ style_button "C" "c" ];
      [ cancel_button ] ] = (full ++ tail ++ [ [ cancel_button ] ])%list /\
    Forall (fun r => length r = 2%nat) full /\
    length full = (length (styles three_styles_generator) / 2)%nat /\
    ((tail = [] /\ (length (styles three_styles_generator) mod 2 = 0)%nat) \/
     (exists row, tail = [ row ] /\ length row = 1%nat /\
                  (length (styles three_styles_generator) mod 2 = 1)%nat)).
Proof.
  apply (proj1 (keyboard_rows_are_filled three_styles_generator "a" "3:4"
                  sample_world sample_state) _ sample_state).
  reflexivity.
Defined.

Lemma style_keyboard_loop_run : forall items keyboard row w s,
  Forall (fun item => dict_mem "name" (snd item) = true) items ->
  exists kr, style_keyboard_loop items keyboard row w s = (Returns kr, s).
Proof.
  induction items as [| [style_key style_info] rest IH]; intros keyboard row w s HF.
  - eexists. reflexivity.
  - inversion HF as [| x l Hname Hrest]; subst. cbn [snd] in Hname.
    apply dict_mem_true in Hname. destruct Hname as [name Hname].
    cbn [style_keyboard_loop].
    rewrite (bind_run _ _ _ _ _ _ (lift_run _ _ w s (dict_getitem_run _ _ _ Hname))).
    cbv zeta. destruct (Nat.eqb _ 2); now apply IH.
Qed.

Lemma style_keyboard_loop_Raises : forall items keyboard row w s,
  Exists (fun item => dict_mem "name" (snd item) = false) items ->
  style_keyboard_loop items keyboard row w s = (Raises (KeyError "name"), s).
Proof.
  induction items as [| [style_key style_info] rest IH]; intros keyboard row w s HE.
  - inversion HE.
  - cbn [style_keyboard_loop]. unfold bind, dict_getitem.
    destruct (dict_get style_info "name") as [name |] eqn:Hname; cbn [lift ret raise].
    + inversion HE as [x l Hbad | x l Hrest]; subst.
      * cbn [snd] in Hbad. apply dict_mem_false in Hbad. congruence.
      * destruct (Nat.eqb _ 2); now apply IH.
    + reflexivity.
Qed.

(** X13. [get_style_keyboard] needs a [name] in every configured style: when
    all have one it returns a keyboard, the same in every world and state;
    when a style has none it raises [KeyError('name')], whatever the other
    styles are, and returns no keyboard. *)
Theorem style_keyboard_needs_names (self : PhotoTransformGenerator) :
  (Forall (fun item => dict_mem "name" (snd item) = true) (styles self) ->
   exists kb, forall w s, get_style_keyboard self w s = (Returns kb, s)) /\
  (Exists (fun item => dict_mem "name" (snd item) = false) (styles self) ->
   forall w s, get_style_keyboard self w s = (Raises (KeyError "name"), s)).
Proof.
  split.
  - intros HF.
    destruct (style_keyboard_loop_pure (styles self) [] []) as [o [Ho Hpure]].
    destruct (style_keyboard_loop_run (styles self) [] [] sample_world sample_state HF)
      as [kr Hrun].
    rewrite Hpure in Hrun. inversion Hrun; subst o.
    exists (finish_keyboard (fst kr) (snd kr)). intros w s.
    unfold get_style_keyboard, bind. rewrite Hpure. reflexivity.
  - intros HE w s. unfold get_style_keyboard, bind.
    rewrite (style_keyboard_loop_Raises _ _ _ _ _ HE). reflexivity.
Qed.

(** X13 on a generator whose second style has no name. *)
Lemma style_keyboard_needs_names_witness :
  get_style_keyboard nameless_style_generator sample_world sample_state =
    (Raises (KeyError "name"), sample_state).
Proof.
  apply (proj2 (style_keyboard_needs_names nameless_style_generator)).
  apply Exists_cons_tl. apply Exists_cons_hd. reflexivity.
Defined.

(** X14. For the styles of [__init__], [get_style_description] has a text of
    its own for every configured style: it gives the fallback text exactly for
    the keys that [get_style_info] does not know. *)
Theorem described_styles_are_configured (self : PhotoTransformGenerator)
    (style : string) w s :
  styles self = init_styles ->
  (get_style_description self style w s = (Returns "Описание недоступно", s) <->
   get_style_info self style w s = (Returns None, s)).
Proof.
  intros Hstyles. unfold get_style_description, get_style_info, ret.
  rewrite Hstyles. unfold descriptions, init_styles. cbn [dict_get].
  repeat match goal with
         | |- context [String.eqb style ?k] => destruct (String.eqb style k)
         end;
    split; intros H; try reflexivity; try discriminate H;
    exfalso; vm_compute in H; discriminate H.
Qed.

(** X14 on a key that is not configured. *)
Lemma described_styles_witness :
  get_style_description (sample_generator sample_world) "anime" sample_world sample_state
    = (Returns "Описание недоступно", sample_state).
Proof.
  apply (proj2 (described_styles_are_configured (sample_generator sample_world) "anime"
                  sample_world sample_state eq_refl)).
  reflexivity.
Defined.

(** ** The aspect ratio of the job *)

Lemma submits_ret {A : Type} (P : input_params -> Prop) (a : A) : submits_only P (ret a).
Proof.
  intros w s. exists []. split; [apply events_after_nil | intros ? ? []].
Qed.

Lemma submits_raise {A : Type} (P : input_params -> Prop) (e : exn) :
  submits_only P (@raise A e).
Proof.
  intros w s. exists []. split; [apply events_after_nil | intros ? ? []].
Qed.

Lemma submits_lift {A : Type} (P : input_params -> Prop) (r : result A) :
  submits_only P (lift r).
Proof. destruct r; [apply submits_ret | apply submits_raise]. Qed.

Lemma submits_now (P : input_params -> Prop) : submits_only P datetime_now_isoformat.
Proof.
  intros w s. exists []. split; [apply events_after_nil | intros ? ? []].
Qed.

Lemma submits_environ_getitem (P : input_params -> Prop) (k : string) :
  submits_only P (environ_getitem k).
Proof.
  intros w s. exists []. unfold environ_getitem.
  destruct (dict_get (environ s) k); cbn;
    (split; [apply events_after_nil | intros ? ? []]).
Qed.

Lemma submits_call {A : Type} (P : input_params -> Prop) (e : event)
    (ask : World -> result A) :
  (forall model input, e = EvCreate model input -> P input) ->
  submits_only P (call e ask).
Proof.
  intros He w s. exists [ e ]. unfold call.
  destruct (ask w); cbn [lift ret raise snd];
    (split; [apply events_after_log |]);
    intros model input [H | []]; apply (He model); exact H.
Qed.

Lemma submits_bind {A B : Type} (P : input_params -> Prop) (m : M A) (k : A -> M B) :
  submits_only P m -> (forall a, submits_only P (k a)) -> submits_only P (bind m k).
Proof.
  intros Hm Hk w s. destruct (Hm w s) as (e1 & Hev1 & Hp1).
  unfold bind. destruct (m w s) as [[a | e |] s1]; cbn [fst snd] in *.
  - destruct (Hk a w s1) as (e2 & Hev2 & Hp2).
    exists (e1 ++ e2)%list. split; [eapply events_after_trans; eassumption |].
    intros model input Hin. apply in_app_or in Hin. destruct Hin; eauto.
  - exists e1. auto.
  - exists e1. auto.
Qed.

Lemma submits_try_except {A : Type} (P : input_params -> Prop) (body : M A)
    (h : exn -> M A) :
  submits_only P body -> (forall e w s, snd (h e w s) = s) ->
  submits_only P (try_except body h).
Proof.
  intros Hb Hh w s. destruct (Hb w s) as (evs & Hev & Hp).
  exists evs. split; [| exact Hp].
  unfold try_except. destruct (body w s) as [[a | e |] s1]; cbn [fst snd] in *;
    try exact Hev.
  destruct (exn_is_exception e); [rewrite Hh |]; exact Hev.
Qed.

Lemma submits_wait (P : input_params -> Prop) fuel self : forall n p,
  submits_only P (wait_for_completion fuel self n p).
Proof.
  induction fuel as [| fuel IH]; intros n p; cbn [wait_for_completion];
    destruct (str_in (pred_status p) terminal_statuses); cbn [negb];
    try apply submits_ret.
  - intros w s. exists []. split; [apply events_after_nil | intros ? ? []].
  - apply submits_bind; [apply submits_call; discriminate | intros _].
    apply submits_bind; [apply submits_call; discriminate | intros q].
    apply IH.
Qed.

(** Walks through code built from the monad's operations. *)
Ltac submit :=
  lazymatch goal with
  | |- submits_only _ (bind _ _) => apply submits_bind; [submit | intros ?; submit]
  | |- submits_only _ (if ?c then _ else _) => destruct c; submit
  | |- submits_only _ (match ?x with FileBytes _ => _ | FileOther _ => _ end) =>
      destruct x; submit
  | |- submits_only _ (call (EvCreate _ _) _) =>
      apply submits_call; intros ? ? Heq; inversion Heq; reflexivity
  | |- submits_only _ (call _ _) => apply submits_call; discriminate
  | |- submits_only _ (lift _) => apply submits_lift
  | |- submits_only _ (ret _) => apply submits_ret
  | |- submits_only _ (raise _) => apply submits_raise
  | |- submits_only _ datetime_now_isoformat => apply submits_now
  | |- submits_only _ (environ_getitem _) => apply submits_environ_getitem
  | |- submits_only _ (wait_for_completion _ _ _ _) => apply submits_wait
  | |- submits_only _ (try_except _ _) =>
      apply submits_try_except; [submit | reflexivity]
  | |- submits_only _ (download_image _ _ _) => unfold download_image; cbv zeta; submit
  | |- submits_only _ (upload_image_to_replicate _ _) =>
      unfold upload_image_to_replicate; cbv zeta; submit
  end.

(** Whatever the outcome, a job that the run submits carries the normalized
    aspect ratio. *)
Lemma generate_image_submits_normalized fuel self image_url style user_id aspect_ratio
    resolution :
  submits_only (fun input => ip_aspect_ratio input = normalized_ratio self aspect_ratio)
    (generate_image fuel self image_url style user_id aspect_ratio resolution).
Proof.
  unfold generate_image. cbv zeta. rewrite !normalize_if. submit.
Qed.

(** With every step up to the submission answering well, the run does
    submit the job: it passes through the state [s1]. *)
Lemma generate_image_reaches_submission fuel self image_url style user_id aspect_ratio
    resolution w s style_config created s1 :
  job_submitted self image_url style aspect_ratio resolution w s style_config created s1 ->
  exists rest,
    events_after s1
      (snd (generate_image fuel self image_url style user_id aspect_ratio resolution w s))
      rest.
Proof.
  intros (response & file_id & image_bytes & file_type & img & rgb & processed & token
          & processed_url & prompt_template & model & Hvalid & Hcfg & Hget & Hmeta & Hfile
          & Hmagic & Himg & Hopen & Hconv & Hsave & Htok & Hup & Hprompt & Hmodel
          & Hcreate & ->).
  apply valid_arguments_true in Hvalid. destruct Hvalid as [Hstyle [Hratio Hres]].
  pose proof (download_image_run w s (api_key self) image_url (client self) response
                file_id image_bytes file_type Hget Hmeta Hfile Hmagic Himg) as Hdl.
  destruct (upload_image_accepted w
              (after_calls s [ EvGet image_url (download_headers (api_key self));
                               EvFilesGet file_id; EvMagic image_bytes;
                               EvImageOpen image_bytes; EvImageConvert img "RGB";
                               EvImageSave rgb "JPEG" 95 ])
              processed "processed.jpg" processed_url) as [token' [Htok' Hupload]].
  { destruct Hup as (t & r & items & H1 & H2 & H3 & H4 & H5).
    exists t, r, items. auto. }
  cbn [after_calls environ] in Htok'. rewrite Htok in Htok'.
  inversion Htok'; subst token'; clear Htok'.
  unfold generate_image. cbv zeta. rewrite !normalize_if.
  rewrite Hstyle, Hratio, Hres. cbv beta iota delta [negb].
  rewrite (try_except_bind_run _ _ _ _ _ _ _
             (lift_run _ _ w s (dict_getitem_run _ _ _ Hcfg))).
  rewrite (try_except_bind_run _ _ _ _ _ _ _ Hdl).
  rewrite (try_except_bind_run _ _ _ _ _ _ _
             (try_except_Returns _ _ _ _ _ _
                (call_Ok (EvImageOpen image_bytes) (fun w0 => image_open w0 image_bytes)
                   w _ img Hopen))).
  rewrite (try_except_bind_run _ _ _ _ _ _ _
             (call_Ok (EvImageConvert img "RGB") (fun w0 => image_convert w0 img "RGB")
                w _ rgb Hconv)).
  rewrite (try_except_bind_run _ _ _ _ _ _ _
             (call_Ok (EvImageSave rgb "JPEG" 95) (fun w0 => image_save w0 rgb "JPEG" 95)
                w _ processed Hsave)).
  rewrite !after_calls_log, !after_calls_app. cbn [app].
  rewrite (try_except_bind_run _ _ _ _ _ _ _ Hupload).
  rewrite (try_except_bind_run _ _ _ _ _ _ _
             (lift_run _ _ w _ (dict_getitem_run _ _ _ Hprompt))).
  rewrite (try_except_bind_run _ _ _ _ _ _ _
             (lift_run _ _ w _ (dict_getitem_run _ _ _ Hmodel))).
  rewrite (try_except_bind_run _ _ _ _ _ _ _
             (call_Ok (EvCreate model
                         (job_input prompt_template (normalized_ratio self aspect_ratio)
                            processed_url resolution))
                (fun _ => predictions_create (client self) model
                            (job_input prompt_template (normalized_ratio self aspect_ratio)
                               processed_url resolution))
                w _ created Hcreate)).
  rewrite !after_calls_log, !after_calls_app. cbn [app].
  unfold job_calls.
  match goal with
  | |- exists rest, events_after _ (snd (try_except ?body ?h w ?s2)) rest =>
      destruct (try_except_silent 8 8 body h) with (w := w) (s := s2)
        as (rest & k & Hrest & _)
  end.
  - follow.
  - reflexivity.
  - exists rest. exact Hrest.
Qed.

(** C6. With the tables of [__init__], [generate_image] normalizes the
    shorthand aspect ratios by the fixed map 9 to 9:16, 16 to 16:9, 4 to 4:3,
    3 to 3:4, 1 to 1:1 (a call with a shorthand is the call with what it
    stands for, any other argument is taken as it is).  When the normalized
    argument is not one of 9:16, 4:3, 3:4, 1:1, 16:9 the call gives a failure
    result and makes no call to the outside, so no job is submitted.  When it
    is one of them, with a known style and resolution, the call passes the
    check and goes on to request the image; whatever the outcome, a job that
    the call submits carries the normalized ratio, and when every step up to
    the submission answers well the call does submit that job. *)
Theorem aspect_ratio_normalized_then_checked fuel self image_url style user_id
    aspect_ratio resolution w s :
  aspect_ratio_map self = init_aspect_ratio_map ->
  aspect_ratios self = init_aspect_ratios ->
  (normalized_ratio self "9" = "9:16" /\ normalized_ratio self "16" = "16:9" /\
   normalized_ratio self "4" = "4:3" /\ normalized_ratio self "3" = "3:4" /\
   normalized_ratio self "1" = "1:1" /\
   (~ In aspect_ratio [ "9"; "16"; "4"; "3"; "1" ] ->
    normalized_ratio self aspect_ratio = aspect_ratio)) /\
  generate_image fuel self image_url style user_id aspect_ratio resolution w s =
    generate_image fuel self image_url style user_id
      (normalized_ratio self aspect_ratio) resolution w s /\
  (~ In (normalized_ratio self aspect_ratio) [ "9:16"; "4:3"; "3:4"; "1:1"; "16:9" ] ->
   exists err,
     generate_image fuel self image_url style user_id aspect_ratio resolution w s =
       (Returns (failure_dict err style (now_isoformat w)), s) /\
     dict_get (failure_dict err style (now_isoformat w)) "success" = Some (VBool false)) /\
  (In (normalized_ratio self aspect_ratio) [ "9:16"; "4:3"; "3:4"; "1:1"; "16:9" ] ->
   dict_mem style (styles self) = true ->
   dict_mem resolution (resolutions self) = true ->
   exists rest,
     events_after s
       (snd (generate_image fuel self image_url style user_id aspect_ratio resolution w s))
       (EvGet image_url (download_headers (api_key self)) :: rest)) /\
  (exists evs,
     events_after s
       (snd (generate_image fuel self image_url style user_id aspect_ratio resolution w s))
       evs /\
     forall model input,
       In (EvCreate model input) evs ->
       ip_aspect_ratio input = normalized_ratio self aspect_ratio) /\
  (forall style_config created s1,
     job_submitted self image_url style aspect_ratio resolution w s style_config created s1 ->
     exists before model input rest,
       trace s1 = (before ++ [ EvCreate model input ])%list /\
       ip_aspect_ratio input = normalized_ratio self aspect_ratio /\
       events_after s1
         (snd (generate_image fuel self image_url style user_id aspect_ratio resolution w s))
         rest).
Proof.
  intros Hmap Hratios. split; [| split; [| split; [| split; [| split]]]].
  - unfold normalized_ratio. rewrite Hmap. repeat (split; [reflexivity |]).
    intros Hnot. destruct (dict_get init_aspect_ratio_map aspect_ratio) as [v |] eqn:E;
      [| reflexivity].
    exfalso. apply Hnot. apply init_aspect_ratio_map_cases in E. cbn [In].
    destruct E as [[-> _] | [[-> _] | [[-> _] | [[-> _] | [-> _]]]]]; auto 10.
  - unfold generate_image. cbv zeta. rewrite !normalize_if.
    rewrite (normalized_ratio_idempotent self aspect_ratio Hmap). reflexivity.
  - intros Hnot.
    destruct (generate_image_invalid fuel self image_url style user_id aspect_ratio
                resolution w s) as [err Hrun].
    + right. left. rewrite Hratios.
      destruct (dict_mem (normalized_ratio self aspect_ratio) init_aspect_ratios) eqn:E;
        [| reflexivity].
      exfalso. apply Hnot. now apply init_aspect_ratios_mem.
    + exists err. split; [exact Hrun | reflexivity].
  - intros Hin Hstyle Hres. apply generate_image_first_call.
    apply valid_arguments_true. rewrite Hratios.
    split; [exact Hstyle |]. split; [| exact Hres]. now apply init_aspect_ratios_mem.
  - apply generate_image_submits_normalized.
  - intros style_config created s1 Hjob.
    destruct (generate_image_reaches_submission fuel self image_url style user_id
                aspect_ratio resolution w s style_config created s1 Hjob) as [rest Hrest].
    destruct Hjob as (response & file_id & image_bytes & file_type & img & rgb & processed
                      & token & processed_url & prompt_template & model & Hjob).
    repeat match type of Hjob with _ /\ _ => destruct Hjob as [_ Hjob] end.
    subst s1.
    exists (trace s ++
            [ EvGet image_url (download_headers (api_key self)); EvFilesGet file_id;
              EvMagic image_bytes; EvImageOpen image_bytes; EvImageConvert img "RGB";
              EvImageSave rgb "JPEG" 95;
              EvPost files_endpoint (upload_headers token "processed.jpg") processed ])%list,
      model,
      (job_input prompt_template (normalized_ratio self aspect_ratio) processed_url
         resolution),
      rest.
    split; [| split; [reflexivity | exact Hrest]].
    cbn [trace]. unfold job_calls. rewrite <- app_assoc. reflexivity.
Qed.

Lemma sample_job_submitted_9 :
  job_submitted (sample_generator sample_world) sample_url "lego" "9" "720p"
    sample_world sample_state lego_config (sample_prediction "starting") sample_job_state_9.
Proof.
  exists metadata_response, (JStr "f1"), png_bytes, "image/png", sample_image, sample_rgb,
    jpeg_bytes, "r8_key", sample_uploaded_url, lego_prompt, "runwayml/gen4-image".
  repeat (split; [reflexivity |]).
  split.
  { split; [reflexivity |]. split; [reflexivity |].
    exists [ ("id", JStr "f1") ]. split; reflexivity. }
  repeat (split; [reflexivity |]).
  split.
  { exists "r8_key", created_response,
      [ ("id", JStr "f2"); ("url", JStr "https://api.replicate.com/v1/files/f2") ].
    repeat split; reflexivity. }
  repeat (split; [reflexivity |]).
  reflexivity.
Qed.

(** C6 at the sample generator: the argument ["2:3"] is refused without a
    call, the shorthand ["9"] passes the check, and the job of the run with
    ["9"] is submitted with the ratio ["9:16"]. *)
Lemma aspect_ratio_checked_witness :
  (exists err,
     generate_image 3 (sample_generator sample_world) sample_url "lego" 42 "2:3" "720p"
       sample_world sample_state =
       (Returns (failure_dict err "lego" (now_isoformat sample_world)), sample_state) /\
     dict_get (failure_dict err "lego" (now_isoformat sample_world)) "success"
       = Some (VBool false)) /\
  (exists rest,
     events_after sample_state
       (snd (generate_image 3 (sample_generator sample_world) sample_url "lego" 42 "9" "720p"
               sample_world sample_state))
       (EvGet sample_url (download_headers "r8_key") :: rest)) /\
  (exists before model input rest,
     trace sample_job_state_9 = (before ++ [ EvCreate model input ])%list /\
     ip_aspect_ratio input = "9:16" /\
     events_after sample_job_state_9
       (snd (generate_image 3 (sample_generator sample_world) sample_url "lego" 42 "9" "720p"
               sample_world sample_state))
       rest).
Proof.
  split; [| split].
  - apply (proj1 (proj2 (proj2 (aspect_ratio_normalized_then_checked 3
             (sample_generator sample_world) sample_url "lego" 42 "2:3" "720p"
             sample_world sample_state eq_refl eq_refl)))).
    cbn. intros [H | [H | [H | [H | [H | []]]]]]; discriminate H.
  - apply (proj1 (proj2 (proj2 (proj2 (aspect_ratio_normalized_then_checked 3
             (sample_generator sample_world) sample_url "lego" 42 "9" "720p"
             sample_world sample_state eq_refl eq_refl))))).
    + cbn. tauto.
    + reflexivity.
    + reflexivity.
  - apply (proj2 (proj2 (proj2 (proj2 (proj2 (aspect_ratio_normalized_then_checked 3
             (sample_generator sample_world) sample_url "lego" 42 "9" "720p"
             sample_world sample_state eq_refl eq_refl)))))
             lego_config (sample_prediction "starting")).
    apply sample_job_submitted_9.
Defined.

(** ** Exceptions and answers of generate_image *)









(** ** The constructor and the process environment *)

(** X8. [__init__] makes no call to the outside.  With a key that has no NUL
    character it stores the key in the generator, builds the client from it
    and exports it to the process environment as [REPLICATE_API_TOKEN],
    replacing an earlier value and leaving every other variable as it was;
    with a key that has a NUL character the assignment to [os.environ] raises
    [ValueError], no generator is built and the environment is left as it was. *)
Theorem init_exports_key (replicate_api_key : string) w s :
  (str_contains nul replicate_api_key = false ->
   exists self s',
     init replicate_api_key w s = (Returns self, s') /\
     api_key self = replicate_api_key /\
     client self = replicate_Client w replicate_api_key /\
     dict_get (environ s') "REPLICATE_API_TOKEN" = Some replicate_api_key /\
     (forall k, k <> "REPLICATE_API_TOKEN" ->
                dict_get (environ s') k = dict_get (environ s) k) /\
     trace s' = trace s) /\
  (str_contains nul replicate_api_key = true ->
   init replicate_api_key w s = (Raises (ValueError "embedded null byte"), s)).
Proof.
  split.
  - intros Hnul. eexists. eexists. split; [apply (init_run _ _ _ Hnul) |]. cbn.
    repeat split.
    + apply dict_get_set.
    + intros k Hk. now apply dict_get_set_other.
  - apply init_nul.
Qed.

(** X8 for the key [r8_key], over an environment with an older token and
    another variable, and for a key with a NUL character. *)
Lemma init_exports_key_witness :
  (exists self s',
     init "r8_key" sample_world
       {| environ := [ ("HOME", "/root"); ("REPLICATE_API_TOKEN", "old") ]; trace := [] |}
       = (Returns self, s') /\
     api_key self = "r8_key" /\
     client self = replicate_Client sample_world "r8_key" /\
     dict_get (environ s') "REPLICATE_API_TOKEN" = Some "r8_key" /\
     (forall k, k <> "REPLICATE_API_TOKEN" ->
                dict_get (environ s') k
                = dict_get [ ("HOME", "/root"); ("REPLICATE_API_TOKEN", "old") ] k) /\
     trace s' = []) /\
  init ("r8" ++ nul ++ "key") sample_world sample_state =
    (Raises (ValueError "embedded null byte"), sample_state).
Proof.
  split.
  - apply (proj1 (init_exports_key "r8_key" sample_world
                    {| environ := [ ("HOME", "/root"); ("REPLICATE_API_TOKEN", "old") ];
                       trace := [] |})).
    reflexivity.
  - apply (proj2 (init_exports_key ("r8" ++ nul ++ "key") sample_world sample_state)).
    reflexivity.
Defined.

(** ** Failures of the steps of generate_image *)

(** X10. With valid arguments, [generate_image] turns an exception of a
    failing step that is an instance of [Exception] into a failure result and
    stops there: when [download_image] raises one, the error is its text and
    nothing is opened, uploaded or submitted; when PIL raises one on opening
    the downloaded bytes, the error is its text after the prefix of the module
    and nothing is uploaded or submitted; when the upload raises one, the
    error is its text and no job is submitted.  An exception that is not an
    instance of [Exception] is not turned into a result: raised by
    [download_image], it reaches the caller as it is. *)
Theorem generate_image_reports_step_failure fuel self image_url style user_id aspect_ratio
    resolution w s :
  valid_arguments self style aspect_ratio resolution = true ->
  (forall e s1,
     download_image (api_key self) image_url (client self) w s = (Raises e, s1) ->
     exn_is_exception e = true ->
     generate_image fuel self image_url style user_id aspect_ratio resolution w s =
       (Returns (failure_dict (exn_str e) style (now_isoformat w)), s1)) /\
  (forall image_bytes s1 err,
     download_image (api_key self) image_url (client self) w s = (Returns image_bytes, s1) ->
     image_open w image_bytes = Raise err ->
     exn_is_exception err = true ->
     generate_image fuel self image_url style user_id aspect_ratio resolution w s =
       (Returns (failure_dict ("Невозможно открыть изображение: " ++ exn_str err) style
                   (now_isoformat w)),
        log_event (EvImageOpen image_bytes) s1)) /\
  (forall image_bytes s1 img rgb processed e s2,
     download_image (api_key self) image_url (client self) w s = (Returns image_bytes, s1) ->
     image_open w image_bytes = Ok img ->
     image_convert w img "RGB" = Ok rgb ->
     image_save w rgb "JPEG" 95 = Ok processed ->
     upload_image_to_replicate processed "processed.jpg" w
       (after_calls s1 [ EvImageOpen image_bytes; EvImageConvert img "RGB";
                         EvImageSave rgb "JPEG" 95 ]) = (Raises e, s2) ->
     exn_is_exception e = true ->
     generate_image fuel self image_url style user_id aspect_ratio resolution w s =
       (Returns (failure_dict (exn_str e) style (now_isoformat w)), s2)) /\
  (forall e s1,
     download_image (api_key self) image_url (client self) w s = (Raises e, s1) ->
     exn_is_exception e = false ->
     generate_image fuel self image_url style user_id aspect_ratio resolution w s =
       (Raises e, s1)).
Proof.
  intros Hvalid. apply valid_arguments_true in Hvalid.
  destruct Hvalid as [Hstyle [Hratio Hres]].
  destruct (proj1 (dict_mem_true _ _) Hstyle) as [style_config Hcfg].
  unfold generate_image. cbv zeta. rewrite !normalize_if.
  rewrite Hstyle, Hratio, Hres. cbv beta iota delta [negb].
  rewrite (try_except_bind_run _ _ _ _ _ _ _
             (lift_run _ _ w s (dict_getitem_run _ _ _ Hcfg))).
  split; [| split; [| split]].
  - intros e s1 Hdl He. rewrite (try_except_bind_Raises _ _ _ _ _ _ _ Hdl He). reflexivity.
  - intros image_bytes s1 err Hdl Hopen Herr.
    rewrite (try_except_bind_run _ _ _ _ _ _ _ Hdl).
    assert (Hraise :
              try_except
                (call (EvImageOpen image_bytes) (fun w0 => image_open w0 image_bytes))
                (fun pil_err =>
                   raise (ValueError ("Невозможно открыть изображение: "
                                        ++ exn_str pil_err))) w s1
              = (Raises (ValueError ("Невозможно открыть изображение: " ++ exn_str err)),
                 log_event (EvImageOpen image_bytes) s1)).
    { rewrite (try_except_run_Raises _ _ _ _ _ _
                 (call_Raise (EvImageOpen image_bytes)
                    (fun w0 => image_open w0 image_bytes) w s1 err Hopen) Herr).
      reflexivity. }
    rewrite (try_except_bind_Raises _ _ _ _ _ _ _ Hraise eq_refl).
    reflexivity.
  - intros image_bytes s1 img rgb processed e s2 Hdl Hopen Hconv Hsave Hup He.
    rewrite (try_except_bind_run _ _ _ _ _ _ _ Hdl).
    rewrite (try_except_bind_run _ _ _ _ _ _ _
               (try_except_Returns _ _ _ _ _ _
                  (call_Ok (EvImageOpen image_bytes) (fun w0 => image_open w0 image_bytes)
                     w _ img Hopen))).
    rewrite (try_except_bind_run _ _ _ _ _ _ _
               (call_Ok (EvImageConvert img "RGB") (fun w0 => image_convert w0 img "RGB")
                  w _ rgb Hconv)).
    rewrite (try_except_bind_run _ _ _ _ _ _ _
               (call_Ok (EvImageSave rgb "JPEG" 95) (fun w0 => image_save w0 rgb "JPEG" 95)
                  w _ processed Hsave)).
    rewrite !after_calls_log, !after_calls_app. cbn [app].
    rewrite (try_except_bind_Raises _ _ _ _ _ _ _ Hup He). reflexivity.
  - intros e s1 Hdl He. unfold try_except, bind at 1. rewrite Hdl, He. reflexivity.
Qed.

(** X10 at a world that refuses the metadata request, and at one where the
    task is cancelled while it waits for the metadata. *)
Lemma generate_image_reports_step_failure_witness :
  generate_image 3 (sample_generator refusing_world) sample_url "lego" 42 "3:4" "720p"
    refusing_world sample_state =
    (Returns (failure_dict "Cannot connect to host" "lego" (now_isoformat refusing_world)),
     log_event (EvGet sample_url (download_headers "r8_key")) sample_state) /\
  generate_image 3 (sample_generator cancelling_world) sample_url "lego" 42 "3:4" "720p"
    cancelling_world sample_state =
    (Raises (Exn "CancelledError" EmptyString false),
     log_event (EvGet sample_url (download_headers "r8_key")) sample_state).
Proof.
  split.
  - apply (proj1 (generate_image_reports_step_failure 3 (sample_generator refusing_world)
                    sample_url "lego" 42 "3:4" "720p" refusing_world sample_state eq_refl)
             (Exn "ClientConnectorError" "Cannot connect to host" true));
      reflexivity.
  - apply (proj2 (proj2 (proj2
             (generate_image_reports_step_failure 3 (sample_generator cancelling_world)
                sample_url "lego" 42 "3:4" "720p" cancelling_world sample_state eq_refl)))
             (Exn "CancelledError" EmptyString false));
      reflexivity.
Defined.
